(** * stateinterpreter.MD: the [Loader] pipeline

    A shallow embedding of [src/stateinterpreter/MD.py]: the construction of a
    [Loader] (strided tables), the validation of log-weights, the free-energy
    surface built on a Gaussian kernel density estimate, and the assignment of
    every training sample to a basin around a local minimum.

    Numbers are IEEE-754 binary64 values (numpy's [float64]), embedded as
    Rocq's primitive [float]; the [float32] values of [mdtraj] are the
    binary64 values that binary32 has, with the arithmetic rounded to
    binary32; indices and lengths are [nat]; arguments that
    Python accepts with any sign ([stride], [splits]) are [Z].  Python
    exceptions are values of [exception]; a method of [Loader] is a function
    from the object before the call to the outcome and the object after it,
    so that what a call has already assigned when it raises stays assigned. *)

From Stdlib Require Import Ascii String ZArith List Bool Lia Floats DecimalString Sorted.
Import ListNotations.

Set Implicit Arguments.

(** ** Exceptions and results *)

(** The built-in exception classes the module raises, with their message,
    followed by the six classes of the specification's error taxonomy. *)
Inductive exception : Type :=
| KeyError (msg : string)
| TypeError (msg : string)
| ValueError (msg : string)
| AssertionError (msg : string)
| AttributeError (msg : string)
| IndexError (msg : string)
| OverflowError (msg : string)
| InvalidInputError
| DegenerateInputError
| SingularBandwidthError
| NoMinimaFoundError
| DimensionMismatchError
| PreconditionError.

Inductive result (A : Type) : Type :=
| Ok (a : A)
| Raise (e : exception).

Arguments Ok {A} a.
Arguments Raise {A} e.

Definition rbind {A B : Type} (r : result A) (k : A -> result B) : result B :=
  match r with
  | Ok a => k a
  | Raise e => Raise e
  end.

Fixpoint rmap {A B : Type} (f : A -> result B) (l : list A) : result (list B) :=
  match l with
  | [] => Ok []
  | x :: r => rbind (f x) (fun y => rbind (rmap f r) (fun ys => Ok (y :: ys)))
  end.

(** ** numpy arrays and pandas tables *)

(** A general array, as numpy stores it: a shape and the entries in row-major
    order.  Only [ndim] of such an array is ever inspected by the module. *)
Record ndarray : Type := { shape : list nat; data : list float }.

Definition ndim (a : ndarray) : nat := length (shape a).

(** A two-dimensional array of samples, by rows: [N] points of [D]
    coordinates. *)
Definition array2 : Type := list (list float).

(** A [pandas.DataFrame] of numbers: row labels, column labels, rows. *)
Record DataFrame : Type := {
  index : list Z;
  columns : list string;
  values : list (list float)
}.

Definition df_len (df : DataFrame) : nat := length (index df).

(** The table returned by [_basin_selection]: column ["basin"] and column
    ["selection"], one entry per sample. *)
Record BasinsFrame : Type := {
  basin : list nat;
  selection : list bool
}.


(** A Python value passed as [logweights] or [bw_method]. [PyObject] stands
    for a value of any other type, named by its type. *)
Inductive pyobj : Type :=
| PyNone
| PyStr (s : string)
| PyDataFrame (df : DataFrame)
| PyNdarray (a : ndarray)
| PyObject (type_name : string).

(** *** Python built-ins *)

(** [str(n)] for an integer *)
Definition str_nat (n : nat) : string := NilZero.string_of_uint (Nat.to_uint n).
Definition str_Z (z : Z) : string := NilZero.string_of_int (Z.to_int z).

(** [sys.maxsize]: the largest index-sized integer. *)
Definition sys_maxsize : Z := (2 ^ 63 - 1)%Z.

(** *** Slices with a step: [seq[::step]], and splitting *)

Section Slices.
Variable A : Type.

(** Keeps the next element once [wait] elements have been passed over, and
    after it one element in every [step]. *)
Fixpoint every_from (step wait : nat) (l : list A) : list A :=
  match l with
  | [] => []
  | x :: r =>
      match wait with
      | O => x :: every_from step (pred step) r
      | S w => every_from step w r
      end
  end.

(** [l[::step]]: from the first element forwards for a positive step, from
    the last one backwards for a negative one; a zero step raises. *)
Definition slice_step (step : Z) (l : list A) : result (list A) :=
  match step with
  | Z0 => Raise (ValueError "slice step cannot be zero")
  | Zpos p => Ok (every_from (Pos.to_nat p) 0 l)
  | Zneg p => Ok (every_from (Pos.to_nat p) 0 (rev l))
  end.

(** *** [np.array_split(ary, sections, axis=0)] *)

(** Consecutive pieces of the given sizes (numpy slices between the
    cumulative sums of the sizes). *)
Fixpoint split_sizes (sizes : list nat) (l : list A) : list (list A) :=
  match sizes with
  | [] => []
  | n :: r => firstn n l :: split_sizes r (skipn n l)
  end.

(** [divmod(Ntotal, Nsections)] gives the size of each section and the number
    of leading sections that take one element more. *)
Definition section_sizes (Ntotal Nsections : nat) : list nat :=
  let Neach_section := Ntotal / Nsections in
  let extras := Ntotal mod Nsections in
  repeat (S Neach_section) extras ++ repeat Neach_section (Nsections - extras).

(** The sizes are built by repeating a list, [extras * [Neach_section+1] +
    (Nsections-extras) * [Neach_section]], and Python repeats a list only as
    many times as an index-sized integer can tell.  An array has at most
    [sys.maxsize] rows, so a count beyond it comes only with more sections
    than rows, where [extras] is [Ntotal].  (Lists that are too long for the
    memory of the machine are not represented.) *)
Definition array_split (ary : list A) (sections : Z) : result (list (list A)) :=
  if (sections <=? 0)%Z
  then Raise (ValueError "number sections must be larger than 0.")
  else
    let Ntotal := Z.of_nat (length ary) in
    if (Ntotal <? sections)%Z && (sys_maxsize <? sections - Ntotal)%Z
    then Raise (OverflowError "cannot fit 'int' into an index-sized integer")
    else Ok (split_sizes (section_sizes (length ary) (Z.to_nat sections)) ary).

(** [np.hstack] of one-dimensional arrays. *)
Definition hstack (arrays : list (list A)) : result (list A) :=
  match arrays with
  | [] => Raise (ValueError "need at least one array to concatenate")
  | _ => Ok (concat arrays)
  end.

(** [a[idx]] for an index that is not negative. *)
Definition getitem (a : list A) (idx : nat) : result A :=
  match nth_error a idx with
  | Some x => Ok x
  | None => Raise (IndexError "index out of bounds")
  end.
End Slices.

(** [df.iloc[::stride, :]]: the slice is taken on the rows, labels and
    values alike; the columns are kept. *)
Definition iloc_rows_step (stride : Z) (df : DataFrame) : result DataFrame :=
  rbind (slice_step stride (index df)) (fun idx =>
  rbind (slice_step stride (values df)) (fun vals =>
  Ok {| index := idx; columns := columns df; values := vals |})).

(** *** Columns by label *)

(** Positions of the columns labelled [name], in column order. *)
Fixpoint col_positions_from (p : nat) (name : string) (cols : list string) : list nat :=
  match cols with
  | [] => []
  | c :: r =>
      if String.eqb c name then p :: col_positions_from (S p) name r
      else col_positions_from (S p) name r
  end.

Definition col_positions (name : string) (cols : list string) : list nat :=
  col_positions_from 0 name cols.

(** [name in df.columns] *)
Definition has_column (name : string) (df : DataFrame) : bool :=
  existsb (String.eqb name) (columns df).

Definition pick (ps : list nat) (row : list float) : list float :=
  map (fun p => nth p row 0%float) ps.

Definition pick_labels (ps : list nat) (cols : list string) : list string :=
  map (fun p => nth p cols EmptyString) ps.

(** [df.to_numpy()] *)
Definition to_numpy (df : DataFrame) : array2 := values df.

(** [df.values] of a frame: always two-dimensional. *)
Definition frame_values (df : DataFrame) : ndarray :=
  {| shape := [df_len df; length (columns df)]; data := concat (values df) |}.

(** [df[name].values] for one label: a one-dimensional array when exactly one
    column carries the label (pandas returns a Series), a two-dimensional one
    when several do (pandas returns a frame). *)
Definition getitem_values (df : DataFrame) (name : string) : result ndarray :=
  match col_positions name (columns df) with
  | [] => Raise (KeyError name)
  | [p] => Ok {| shape := [df_len df]; data := concat (map (pick [p]) (values df)) |}
  | ps => Ok {| shape := [df_len df; length ps]; data := concat (map (pick ps) (values df)) |}
  end.

(** [df.drop(name, axis="columns")] for a label that is present. *)
Definition drop_column (name : string) (df : DataFrame) : DataFrame :=
  let keep := filter (fun p => negb (String.eqb (nth p (columns df) EmptyString) name))
                     (seq 0 (length (columns df))) in
  {| index := index df;
     columns := pick_labels keep (columns df);
     values := map (pick keep) (values df) |}.

(** *** Arithmetic on arrays *)

(** The binary32 value nearest to a binary64 value (ties to even): what
    numpy stores when it takes a number into an array of [float32]. *)
Definition round32 (x : float) : float :=
  SF2Prim (match Prim2SF x with
           | S754_finite s m e => binary_round 24 128 s m e
           | sf => sf
           end).

(** A shape as numpy writes it in a message: [(7,)], [(7,1,3)]. *)
Definition shape_text (dims : list nat) : string :=
  match dims with
  | [n] => "(" ++ str_nat n ++ ",)"
  | _ => "(" ++ String.concat "," (map str_nat dims) ++ ")"
  end.

Definition broadcast_error (shape_a shape_b : list nat) : exception :=
  ValueError ("operands could not be broadcast together with shapes "
              ++ shape_text shape_a ++ " " ++ shape_text shape_b ++ " ").

(** [a - b] along the last axis of two operands, with numpy's broadcasting:
    equal lengths pair up, an operand of length one is repeated, anything
    else raises, and the message gives the shapes of the two arrays that the
    operands are taken from. *)
Definition broadcast_sub (shape_a shape_b : list nat) (a b : list float)
  : result (list float) :=
  if Nat.eqb (length a) (length b)
  then Ok (map (fun ab => (fst ab - snd ab)%float) (combine a b))
  else match a, b with
       | _, [b0] => Ok (map (fun ai => (ai - b0)%float) a)
       | [a0], _ => Ok (map (fun bi => (a0 - bi)%float) b)
       | _, _ => Raise (broadcast_error shape_a shape_b)
       end.

(** *** [np.add.reduce] along a contiguous axis

    numpy adds the entries of a run in the order of its pairwise summation:
    fewer than eight entries one after the other; up to 128 entries on eight
    accumulators that take every eighth entry, are added two by two, and
    are followed by the entries left over; a longer run as the sum of its
    two halves, the first one a multiple of eight long. *)
Definition sum_loop (res : float) (a : list float) : float :=
  fold_left PrimFloat.add a res.

(** [r[0] += a[i + 0]; ...; r[7] += a[i + 7]] for [blocks] blocks of eight
    entries; returns the accumulators and the entries not yet read. *)
Fixpoint add_blocks (blocks : nat) (r a : list float) : list float * list float :=
  match blocks with
  | O => (r, a)
  | S b =>
      add_blocks b (map (fun ra => (fst ra + snd ra)%float) (combine r (firstn 8 a)))
                 (skipn 8 a)
  end.

(** A run of 8 to 128 entries. *)
Definition sum_unrolled (a : list float) : float :=
  let (r, rest) := add_blocks (length a / 8 - 1) (firstn 8 a) (skipn 8 a) in
  match r with
  | [r0; r1; r2; r3; r4; r5; r6; r7] =>
      sum_loop (((r0 + r1) + (r2 + r3)) + ((r4 + r5) + (r6 + r7)))%float rest
  | _ => 0%float
  end.

(** The recursion halves the run; [depth] bounds the number of halvings, and
    a run of [n] entries needs fewer than [n]. *)
Fixpoint pairwise_sum (depth : nat) (a : list float) : float :=
  let n := length a in
  if n <? 8 then sum_loop 0%float a
  else if n <=? 128 then sum_unrolled a
  else match depth with
       | O => 0%float
       | S d =>
           let n2 := n / 2 - (n / 2) mod 8 in
           (pairwise_sum d (firstn n2 a) + pairwise_sum d (skipn n2 a))%float
       end.

(** The reduction starts from the identity of the addition, and adds the sum
    of the run to it.  (The sign of a sum that is zero is not followed.) *)
Definition np_add_reduce (a : list float) : float :=
  (0 + pairwise_sum (length a) a)%float.

(** [np.linalg.norm(v)] along one axis: [sqrt(add.reduce(v * v))]. *)
Definition norm (v : list float) : float :=
  PrimFloat.sqrt (np_add_reduce (map (fun d => (d * d)%float) v)).

(** [np.linalg.norm(positions[:, np.newaxis, :] - minima, axis=2)] for
    [positions] of shape [(N, D)] and [minima] of shape [(M, D')]: one row
    per position, one entry per minimum.  An array is the list of its rows,
    so an array without rows has no width of its own: it stands for the
    array of shape [(0, D)] as wide as the other operand. *)
Definition pairwise_norms (positions minima : array2) : result (list (list float)) :=
  rmap (fun x =>
          rmap (fun m =>
                  rbind (broadcast_sub [length positions; 1; length x]
                                       [length minima; length m] x m)
                        (fun v => Ok (norm v)))
               minima)
       positions.

(** numpy's [argmin] on floats: the first element is the candidate; a later
    element replaces it when the candidate is not [<=] it; a NaN is minimal
    and ends the scan. *)
Fixpoint argmin_loop (ip : list float) (i : nat) (mp : float) (min_ind : nat) : nat :=
  match ip with
  | [] => min_ind
  | x :: rest =>
      if negb (mp <=? x)%float
      then if PrimFloat.is_nan x then i else argmin_loop rest (S i) x i
      else argmin_loop rest (S i) mp min_ind
  end.

Definition np_argmin (a : list float) : result nat :=
  match a with
  | [] => Raise (ValueError "attempt to get argmin of an empty sequence")
  | x :: rest => Ok (if PrimFloat.is_nan x then 0 else argmin_loop rest 1 x 0)
  end.

(** [np.argmin(a, axis=1)] for [a] of shape [(N, ncols)]: reducing over an
    axis of length zero raises, however many rows there are. *)
Definition argmin_axis1 (ncols : nat) (a : list (list float)) : result (list nat) :=
  match ncols with
  | O => Raise (ValueError "attempt to get argmin of an empty sequence")
  | S _ => rmap np_argmin a
  end.

(** ** The collaborators of the module *)

(** Modelled from the spec: the estimator class [gaussian_kde] of
    [numerical_utils], which is not part of the sources at hand.  The
    specification gives it the fitted sample set ([dataset], the training
    points that basin assignment labels) and a log-density evaluated at each
    query point on its own; [logpdf] is that evaluation at one point, and
    [kde_logpdf] applies it to the rows of an array. *)
Record gaussian_kde : Type := {
  dataset : array2;
  logpdf : list float -> float
}.

Definition kde_logpdf (K : gaussian_kde) (X : array2) : list float :=
  map (logpdf K) X.

(** What the module imports and calls without defining it: the table reader
    of [io], the estimator's constructor and the optimizer of
    [numerical_utils], [pandas.concat], Python's [str], the trajectory
    type of [mdtraj], and the message [pd_not_in_index key cols] of the
    [KeyError] that pandas raises when the labels [key] are asked of a frame
    with the columns [cols] and some of them are missing (it lists the
    missing ones, or the whole [key] when all are missing). *)
Class Collaborators : Type := {
  table_source : Type;
  trajectory : Type;
  method_kwargs : Type;
  joined_table : Type;
  py_str : pyobj -> string;
  pd_not_in_index : list string -> list string -> string;
  load_dataframe : table_source -> result DataFrame;
  gaussian_kde_new : array2 -> option ndarray -> result gaussian_kde;
  minima_search :
    (array2 -> list float) -> list (float * float) -> option string -> method_kwargs -> array2;
  pd_concat_axis1 : list (DataFrame + BasinsFrame) -> result joined_table
}.

(** Modelled from the spec: [local_minima] of [numerical_utils], which is not
    part of the sources at hand.  It returns the ordered sequence of minima
    that its search locates within the bounds, and fails with
    [NoMinimaFoundError] when the search locates none. *)
Definition local_minima `{Collaborators} (f : array2 -> list float)
    (bounds : list (float * float)) (method : option string)
    (kwargs : method_kwargs) : result array2 :=
  match minima_search f bounds method kwargs with
  | [] => Raise NoMinimaFoundError
  | found => Ok found
  end.

(** [df[names]] for a list of labels: the columns with these labels, in the
    order asked; when a label is carried by no column, pandas raises
    [KeyError] with its message on the missing labels. *)
Definition getitem_list `{Collaborators} (df : DataFrame) (names : list string)
  : result DataFrame :=
  rbind (rmap (fun n => match col_positions n (columns df) with
                        | [] => Raise (KeyError (pd_not_in_index names (columns df)))
                        | ps => Ok ps
                        end) names) (fun pss =>
  let ps := concat pss in
  Ok {| index := index df;
        columns := pick_labels ps (columns df);
        values := map (pick ps) (values df) |}).

(** ** The [Loader] object *)

Section LoaderModel.
Context `{Collaborators}.

(** The attributes of a [Loader].  [descriptors], [selected_cvs], [KDE] and
    [minima] do not exist until a method assigns them ([None] here is the
    missing attribute); [traj] and [basins] exist from the constructor on and
    hold Python's [None] until they are set.  The attribute [fes] is assigned
    together with [KDE] and is a closure over the object: see [self_fes]. *)
Record Loader : Type := {
  colvar : DataFrame;
  descriptors : option DataFrame;
  kbt : float;
  stride : Z;
  _DEV : bool;
  traj : option trajectory;
  basins : option BasinsFrame;
  selected_cvs : option (list string);
  KDE : option gaussian_kde;
  minima : option array2
}.

(** Default values of the keyword arguments. *)
Definition kbt_default : float := 2.5%float.
Definition stride_default : Z := 1%Z.
Definition fes_cutoff_default : float := 5%float.
Definition splits_default : Z := 50%Z.

Definition keyword {A : Type} (default : A) (given : option A) : A :=
  match given with
  | Some a => a
  | None => default
  end.

(** [Loader.__init__(colvar, descriptors=None, kbt=2.5, stride=1, _DEV=False)] *)
Definition Loader_init (colvar_arg : table_source) (descriptors_arg : option table_source)
    (kbt_arg : option float) (stride_arg : option Z) (dev_arg : option bool)
  : result Loader :=
  let stride_val := keyword stride_default stride_arg in
  rbind (load_dataframe colvar_arg) (fun loaded =>
  rbind (iloc_rows_step stride_val loaded) (fun cv =>
  rbind (match descriptors_arg with
         | None => Ok None
         | Some src =>
             rbind (load_dataframe src) (fun loaded_d =>
             rbind (iloc_rows_step stride_val loaded_d) (fun d =>
             let d' := if has_column "time" d then drop_column "time" d else d in
             if Nat.eqb (df_len cv) (df_len d')
             then Ok (Some d')
             else Raise (AssertionError "mismatch between colvar and descriptor length.")))
         end) (fun descr =>
  Ok {| colvar := cv;
        descriptors := descr;
        kbt := keyword kbt_default kbt_arg;
        stride := stride_val;
        _DEV := keyword false dev_arg;
        traj := None;
        basins := None;
        selected_cvs := None;
        KDE := None;
        minima := None |}))).

(** *** Methods: state and exceptions *)

Definition M (A : Type) : Type := Loader -> result A * Loader.

Definition ret {A : Type} (a : A) : M A := fun self => (Ok a, self).
Definition raise {A : Type} (e : exception) : M A := fun self => (Raise e, self).
Definition lift {A : Type} (r : result A) : M A := fun self => (r, self).
Definition get_self : M Loader := fun self => (Ok self, self).

Definition bind {A B : Type} (m : M A) (k : A -> M B) : M B :=
  fun self =>
    match m self with
    | (Ok a, self') => k a self'
    | (Raise e, self') => (Raise e, self')
    end.

Definition set_selected_cvs (v : list string) : M unit := fun self =>
  (Ok tt, {| colvar := colvar self; descriptors := descriptors self; kbt := kbt self;
             stride := stride self; _DEV := _DEV self; traj := traj self;
             basins := basins self; selected_cvs := Some v; KDE := KDE self;
             minima := minima self |}).

Definition set_KDE (v : gaussian_kde) : M unit := fun self =>
  (Ok tt, {| colvar := colvar self; descriptors := descriptors self; kbt := kbt self;
             stride := stride self; _DEV := _DEV self; traj := traj self;
             basins := basins self; selected_cvs := selected_cvs self; KDE := Some v;
             minima := minima self |}).

Definition set_minima (v : array2) : M unit := fun self =>
  (Ok tt, {| colvar := colvar self; descriptors := descriptors self; kbt := kbt self;
             stride := stride self; _DEV := _DEV self; traj := traj self;
             basins := basins self; selected_cvs := selected_cvs self; KDE := KDE self;
             minima := Some v |}).

Definition set_basins (v : BasinsFrame) : M unit := fun self =>
  (Ok tt, {| colvar := colvar self; descriptors := descriptors self; kbt := kbt self;
             stride := stride self; _DEV := _DEV self; traj := traj self;
             basins := Some v; selected_cvs := selected_cvs self; KDE := KDE self;
             minima := minima self |}).

Definition get_KDE : M gaussian_kde := fun self =>
  match KDE self with
  | Some K => (Ok K, self)
  | None => (Raise (AttributeError "'Loader' object has no attribute 'KDE'"), self)
  end.
End LoaderModel.

Notation "x <- m ;; k" := (bind m (fun x => k))
  (at level 61, m at next level, right associativity).
Notation "m ;;; k" := (bind m (fun _ => k))
  (at level 61, right associativity).

Section LoaderMethods.
Context `{Collaborators}.

(** The closure [lambda X: -self.kbt*self.KDE.logpdf(X)] that
    [approximate_FES] stores in [self.fes]. *)
Definition fes_closure (kbt_val : float) (K : gaussian_kde) (X : array2) : list float :=
  map (fun lp => (- kbt_val * lp)%float) (kde_logpdf K X).

(** Reading [self.fes]: the closure looks [self.kbt] and [self.KDE] up when
    it is called, and the module calls it at once. *)
Definition self_fes : M (array2 -> list float) :=
  self <- get_self ;;
  K <- get_KDE ;;
  ret (fes_closure (kbt self) K).

Definition get_selected_cvs : M (list string) := fun self =>
  match selected_cvs self with
  | Some v => (Ok v, self)
  | None => (Raise (AttributeError "'Loader' object has no attribute 'selected_cvs'"), self)
  end.

Definition get_descriptors : M DataFrame := fun self =>
  match descriptors self with
  | Some v => (Ok v, self)
  | None => (Raise (AttributeError "'Loader' object has no attribute 'descriptors'"), self)
  end.

(** [Loader.approximate_FES(collective_vars, bw_method=None, logweights=None)] *)
Definition approximate_FES (collective_vars : list string) (bw_method logweights : pyobj)
  : M (array2 -> list float) :=
  self <- get_self ;;
  selected <- lift (getitem_list (colvar self) collective_vars) ;;
  let empirical_centers := to_numpy selected in
  K <- lift (gaussian_kde_new empirical_centers None) ;;
  set_KDE K ;;;
  self_fes.

(** [tqdm(chunks)] yields the chunks in order while it draws a progress
    bar. *)
Definition tqdm {A : Type} (l : list A) : list A := l.

(** [for chunk in chunks: fes_pts.append(self.fes(chunk))] *)
Definition chunk_loop (fes : array2 -> list float) (chunks : list array2) : list (list float) :=
  fold_left (fun fes_pts chunk => fes_pts ++ [fes chunk]) chunks [].

(** [df = pd.DataFrame(data=classes, columns=["basin"]); df["selection"] = mask] *)
Definition new_basins_frame (classes : list nat) (mask : list bool) : result BasinsFrame :=
  if Nat.eqb (length mask) (length classes)
  then Ok {| basin := classes; selection := mask |}
  else Raise (ValueError "Length of values does not match length of index").

(** [Loader._basin_selection(minima, fes_cutoff=5, memory_saver=False, splits=50)] *)
Definition _basin_selection (minima_arg : array2) (fes_cutoff : float)
    (memory_saver : bool) (splits : Z) : M BasinsFrame :=
  K <- get_KDE ;;
  let positions := dataset K in
  norms <- lift (pairwise_norms positions minima_arg) ;;
  classes <- lift (argmin_axis1 (length minima_arg) norms) ;;
  fes <- self_fes ;;
  let fes_at_minima := fes minima_arg in
  ref_fes <- lift (rmap (getitem fes_at_minima) classes) ;;
  self <- get_self ;;
  fes_pts <- (if memory_saver
              then chunks <- lift (array_split positions splits) ;;
                   lift (hstack (if _DEV self
                                 then chunk_loop fes (tqdm chunks)
                                 else chunk_loop fes chunks))
              else ret (fes positions)) ;;
  diff <- lift (broadcast_sub [length fes_pts] [length ref_fes] fes_pts ref_fes) ;;
  let mask := map (fun d => (d <? fes_cutoff)%float) diff in
  lift (new_basins_frame classes mask).

(** The first block of [identify_states]: the array of log-weights is
    retrieved and checked, and then dropped.  (The warning printed when no
    log-weights are given and a [.bias] column exists is console output and
    is left out.) *)
Definition retrieve_logweights (logweights : pyobj) : M unit :=
  self <- get_self ;;
  match logweights with
  | PyNone => ret tt
  | _ =>
      w <- match logweights with
           | PyStr name => lift (getitem_values (colvar self) name)
           | PyDataFrame df => ret (frame_values df)
           | PyNdarray a => ret a
           | _ => raise (TypeError (py_str logweights ++
                    ": Accepted types are 'pandas.Dataframe', 'str' or 'numpy.ndarray' "))
           end ;;
      if Nat.eqb (ndim w) 1
      then ret tt
      else raise (ValueError (py_str logweights ++ ": 1D array is required for logweights"))
  end.

(** [Loader.identify_states(selected_cvs, bounds, logweights=None,
    fes_cutoff=5, optimizer=None, optimizer_kwargs=dict(), memory_saver=False,
    splits=50)] *)
Definition identify_states (selected_cvs_arg : list string) (bounds : list (float * float))
    (logweights : pyobj) (fes_cutoff : option float) (optimizer : option string)
    (optimizer_kwargs : method_kwargs) (memory_saver : option bool) (splits : option Z)
  : M unit :=
  retrieve_logweights logweights ;;;
  set_selected_cvs selected_cvs_arg ;;;
  approximate_FES selected_cvs_arg PyNone logweights ;;;
  fes <- self_fes ;;
  found <- lift (local_minima fes bounds optimizer optimizer_kwargs) ;;
  set_minima found ;;;
  b <- _basin_selection found (keyword fes_cutoff_default fes_cutoff)
         (keyword false memory_saver) (keyword splits_default splits) ;;
  set_basins b.

(** [Loader.collect_data(only_selected_cvs=False)] *)
Definition collect_data (only_selected_cvs : bool) : M joined_table :=
  self <- get_self ;;
  match basins self with
  | None => raise (KeyError "Basins not selected. Call identify_states() first.")
  | Some b =>
      cv <- (if only_selected_cvs
             then cvs <- get_selected_cvs ;; lift (getitem_list (colvar self) cvs)
             else ret (colvar self)) ;;
      d <- get_descriptors ;;
      lift (pd_concat_axis1 [inl cv; inr b; inl d])
  end.
End LoaderMethods.

(** ** Vocabulary of the statements *)

(** The Euclidean distance between two points of the same dimension in
    binary64: the square root of the sum of the squares of the differences
    of the coordinates, added up in the order of numpy. *)
Definition euclid (x m : list float) : float :=
  PrimFloat.sqrt
    (np_add_reduce (map (fun xm => ((fst xm - snd xm) * (fst xm - snd xm))%float)
                        (combine x m))).



(** The class that [np.argmin] gives a row of distances, and the basin of a
    point among the minima. *)
Definition nearest (a : list float) : nat :=
  match np_argmin a with
  | Ok k => k
  | Raise _ => 0
  end.

Definition assigned (minima_arg : array2) (x : list float) : nat :=
  nearest (map (euclid x) minima_arg).

(** The minimum of the basin of a point. *)
Definition basin_minimum (minima_arg : array2) (x : list float) : list float :=
  nth (assigned minima_arg x) minima_arg [].

(** The free energy at one point: [-kT * logpdf(x)]. *)
Definition FES (kT : float) (K : gaussian_kde) (x : list float) : float :=
  (- kT * logpdf K x)%float.

(** The row that [Loader.__init__] keeps of a descriptor row: the entries
    outside the columns labelled [time]. *)
Definition without_time (cols : list string) (row : list float) : list float :=
  if existsb (String.eqb "time") cols
  then pick (filter (fun p => negb (String.eqb (nth p cols EmptyString) "time"))
                    (seq 0 (length cols))) row
  else row.

(** The types that [identify_states] accepts for [logweights], and the array
    it reads from a value of such a type. *)
Definition accepted_logweights (logweights : pyobj) : bool :=
  match logweights with
  | PyStr _ | PyDataFrame _ | PyNdarray _ => true
  | _ => false
  end.

Definition logweights_array (cv : DataFrame) (logweights : pyobj) : option ndarray :=
  match logweights with
  | PyStr name => match getitem_values cv name with
                  | Ok w => Some w
                  | Raise _ => None
                  end
  | PyDataFrame df => Some (frame_values df)
  | PyNdarray a => Some a
  | _ => None
  end.

(** What [_basin_selection] computes from the estimator once it is there:
    the classes, then the differences [fes_pts - ref_fes]. *)
Definition basin_differences (kT : float) (dev : bool) (K : gaussian_kde) (minima_arg : array2)
    (memory_saver : bool) (splits : Z) : result (list nat * list float) :=
  let positions := dataset K in
  let fes := fes_closure kT K in
  rbind (pairwise_norms positions minima_arg) (fun norms =>
  rbind (argmin_axis1 (length minima_arg) norms) (fun classes =>
  rbind (rmap (getitem (fes minima_arg)) classes) (fun ref_fes =>
  rbind (if memory_saver
         then rbind (array_split positions splits) (fun chunks =>
              hstack (if dev then chunk_loop fes (tqdm chunks) else chunk_loop fes chunks))
         else Ok (fes positions)) (fun fes_pts =>
  rbind (broadcast_sub [length fes_pts] [length ref_fes] fes_pts ref_fes) (fun diff =>
  Ok (classes, diff)))))).

Definition basin_frame (fes_cutoff : float) (cd : list nat * list float) : result BasinsFrame :=
  new_basins_frame (fst cd) (map (fun d => (d <? fes_cutoff)%float) (snd cd)).

(** ** A concrete set of collaborators, and a small data set

    Used to run the model on explicit inputs.  Tables are given in memory;
    the estimator keeps the training points and has the log-density of a
    double well, [-(x^2 - 4)^2 / 8] in the first coordinate (free-energy
    wells at [-2] and [2]); the search looks, on a grid of unit step inside
    one-dimensional bounds, for the points strictly below both neighbours. *)
Module Example.

Definition double_well (x : list float) : float :=
  let x0 := nth 0 x 0%float in
  (- (0.125 * ((x0 * x0 - 4) * (x0 * x0 - 4))))%float.

Fixpoint grid (n : nat) (lo : float) : list float :=
  match n with
  | O => []
  | S k => lo :: grid k (lo + 1)%float
  end.

Fixpoint strict_dips (xs vs : list float) : array2 :=
  match xs, vs with
  | _ :: xr, a :: vr =>
      match xr, vr with
      | x :: _, b :: c :: _ =>
          if ((b <? a) && (b <? c))%float then [x] :: strict_dips xr vr else strict_dips xr vr
      | _, _ => []
      end
  | _, _ => []
  end.

Definition grid_search (f : array2 -> list float) (bounds : list (float * float))
    (method : option string) (steps : nat) : array2 :=
  match bounds with
  | [(lo, hi)] =>
      let xs := filter (fun x => (x <=? hi)%float) (grid steps lo) in
      strict_dips xs (f (map (fun x => [x]) xs))
  | _ => []
  end.

(** The message of pandas on missing labels, for labels that Python writes
    between single quotes. *)
Definition labels_repr (labels : list string) : string :=
  "[" ++ String.concat ", " (map (fun l => "'" ++ l ++ "'")%string labels) ++ "]".

Definition not_in_index (key cols : list string) : string :=
  let missing := filter (fun l => negb (existsb (String.eqb l) cols)) key in
  if Nat.eqb (length missing) (length key)
  then "None of [Index(" ++ labels_repr key ++ ", dtype='object')] are in the [columns]"
  else labels_repr (nodup string_dec missing) ++ " not in index".

#[export] Instance collaborators : Collaborators := {|
  table_source := DataFrame;
  trajectory := unit;
  method_kwargs := nat;
  joined_table := list (DataFrame + BasinsFrame);
  py_str := fun _ => "<object>"%string;
  pd_not_in_index := not_in_index;
  load_dataframe := fun df => Ok df;
  gaussian_kde_new := fun centers _ => Ok {| dataset := centers; logpdf := double_well |};
  minima_search := grid_search;
  pd_concat_axis1 := fun parts => Ok parts
|}.

(** Seven frames of one collective variable [cv], with a bias column. *)
Definition colvar7 : DataFrame := {|
  index := [0; 1; 2; 3; 4; 5; 6]%Z;
  columns := ["time"; "cv"; "opes.bias"]%string;
  values := [[0; -2.5; 0.125]; [1; -2; 0.25]; [2; -1; 0.375]; [3; 0; 0.5];
             [4; 1.5; 0.625]; [5; 2; 0.75]; [6; 3.5; 0.875]]%float
|}.

(** Seven frames of two descriptors, with a [time] column. *)
Definition descriptors7 : DataFrame := {|
  index := [0; 1; 2; 3; 4; 5; 6]%Z;
  columns := ["time"; "d1"; "d2"]%string;
  values := [[0; 10; 20]; [1; 11; 21]; [2; 12; 22]; [3; 13; 23];
             [4; 14; 24]; [5; 15; 25]; [6; 16; 26]]%float
|}.

Definition bounds1 : list (float * float) := [(-4, 4)%float].

(** The estimator fitted on the [cv] column, the two wells, and a loader
    without descriptors once [approximate_FES] has assigned the estimator. *)
Definition kde7 : gaussian_kde := {|
  dataset := [[-2.5]; [-2]; [-1]; [0]; [1.5]; [2]; [3.5]]%float;
  logpdf := double_well
|}.

Definition wells : array2 := [[-2]; [2]]%float.

Definition fitted : Loader := {|
  colvar := colvar7;
  descriptors := None;
  kbt := 2.5%float;
  stride := 1%Z;
  _DEV := false;
  traj := None;
  basins := None;
  selected_cvs := None;
  KDE := Some kde7;
  minima := None
|}.

(** The loader that the constructor returns on the two tables, with the
    default stride and with stride 3. *)
Definition descriptors7_kept : DataFrame := {|
  index := [0; 1; 2; 3; 4; 5; 6]%Z;
  columns := ["d1"; "d2"]%string;
  values := [[10; 20]; [11; 21]; [12; 22]; [13; 23]; [14; 24]; [15; 25]; [16; 26]]%float
|}.

Definition fresh : Loader := {|
  colvar := colvar7;
  descriptors := Some descriptors7_kept;
  kbt := 2.5%float;
  stride := 1%Z;
  _DEV := false;
  traj := None;
  basins := None;
  selected_cvs := None;
  KDE := None;
  minima := None
|}.

Definition strided : Loader := {|
  colvar := {| index := [0; 3; 6]%Z;
               columns := ["time"; "cv"; "opes.bias"]%string;
               values := [[0; -2.5; 0.125]; [3; 0; 0.5]; [6; 3.5; 0.875]]%float |};
  descriptors := Some {| index := [0; 3; 6]%Z;
                         columns := ["d1"; "d2"]%string;
                         values := [[10; 20]; [13; 23]; [16; 26]]%float |};
  kbt := 2.5%float;
  stride := 3%Z;
  _DEV := false;
  traj := None;
  basins := None;
  selected_cvs := None;
  KDE := None;
  minima := None
|}.

(** The table of basins of the seven frames around the two wells. *)
Definition basins7 : BasinsFrame := {|
  basin := [0; 0; 0; 0; 1; 1; 1];
  selection := [true; true; true; false; true; true; false]
|}.

(** Log-weights for the seven frames that single out the last one. *)
Definition logweights7 : ndarray :=
  {| shape := [7]; data := [-50; -50; -50; -50; -50; -50; 0]%float |}.

(** The loader that the constructor returns when no descriptors are given. *)
Definition bare : Loader := {|
  colvar := colvar7;
  descriptors := None;
  kbt := 2.5%float;
  stride := 1%Z;
  _DEV := false;
  traj := None;
  basins := None;
  selected_cvs := None;
  KDE := None;
  minima := None
|}.

(** A loader whose estimator has two samples of three coordinates. *)
Definition kde3d : gaussian_kde := {|
  dataset := [[0; 0; 0]; [1; 1; 1]]%float;
  logpdf := double_well
|}.

Definition fitted3d : Loader := {|
  colvar := colvar7;
  descriptors := None;
  kbt := 2.5%float;
  stride := 1%Z;
  _DEV := false;
  traj := None;
  basins := None;
  selected_cvs := None;
  KDE := Some kde3d;
  minima := None
|}.

(** A point of nine coordinates and two minima: the second minimum is the
    nearer one, by less than the first coordinate can tell when the squares
    are added one after the other. *)
Definition point9 : list float := [100000000; 1; 1; 1; 1; 1; 1; 1; 1]%float.

Definition minima9 : array2 :=
  [[0; 0; 0; 0; 0; 0; 0; 0; 0]; [0; -1; 1; 1; 1; 1; 1; 1; 1]]%float.

(** Eight frames of one descriptor: one frame more than [colvar7]. *)
Definition descriptors8 : DataFrame := {|
  index := [0; 1; 2; 3; 4; 5; 6; 7]%Z;
  columns := ["d1"%string];
  values := [[10]; [11]; [12]; [13]; [14]; [15]; [16]; [17]]%float
|}.

End Example.

(** ** Trajectories and descriptors *)

(** What the module reads of an atom of the topology: its index, its string
    (residue, a dash, the atom name), the symbol of its element and whether it
    belongs to a side chain. *)
Record atom : Type := {
  atom_index : nat;
  atom_str : string;
  element_symbol : string;
  is_sidechain : bool
}.

(** The calls into [mdtraj] and the elementwise functions of [numpy] that
    the descriptors use.  [top_residue t i] is the pair of
    [table["resName"][i]] and [table["resSeq"][i]] of the table that
    [t.top.to_dataframe()] returns; a dihedral computation returns the atom
    indices of each dihedral and the angles, one row per frame.  The
    distances and the angles of [mdtraj] are [float32] values; [np_power] is
    the power of numpy on [float64] entries and [np_power32] the one on
    [float32] entries. *)
Class MdTraj `{Collaborators} : Type := {
  md_load : string -> option string -> Z -> result trajectory;
  traj_len : trajectory -> nat;
  top_select : trajectory -> string -> list nat;
  top_atom : trajectory -> nat -> atom;
  top_bonds : trajectory -> list (atom * atom);
  top_residue : trajectory -> nat -> string * Z;
  compute_distances : trajectory -> list (nat * nat) -> result array2;
  compute_phi : trajectory -> result (list (list nat) * array2);
  compute_psi : trajectory -> result (list (list nat) * array2);
  compute_chi1 : trajectory -> result (list (list nat) * array2);
  compute_chi2 : trajectory -> result (list (list nat) * array2);
  np_cos : float -> float;
  np_sin : float -> float;
  np_power : float -> float -> float;
  np_power32 : float -> float -> float
}.

(** *** Strings and sequences of Python *)

(** [s.split("-")[0]]: what comes before the first dash. *)
Fixpoint before_dash (s : string) : string :=
  match s with
  | EmptyString => EmptyString
  | String c r => if Ascii.eqb c "-"%char then EmptyString else String c (before_dash r)
  end.

(** [sub in s] *)
Definition str_contains (sub s : string) : bool :=
  match String.index 0 sub s with
  | Some _ => true
  | None => false
  end.

(** [itertools.combinations(l, 2)]: the pairs of two positions of [l], the
    earlier one first, in lexicographic order of the positions. *)
Fixpoint combinations2 (A : Type) (l : list A) : list (A * A) :=
  match l with
  | [] => []
  | x :: r => map (pair x) r ++ combinations2 r
  end.

(** [sorted(list(set(l)))] for values compared by [cmp]. *)
Fixpoint insert_sorted (A : Type) (cmp : A -> A -> comparison) (x : A) (l : list A) : list A :=
  match l with
  | [] => [x]
  | y :: r =>
      match cmp x y with
      | Lt => x :: y :: r
      | Eq => y :: r
      | Gt => y :: insert_sorted cmp x r
      end
  end.

Definition sorted_set (A : Type) (cmp : A -> A -> comparison) (l : list A) : list A :=
  fold_right (insert_sorted cmp) [] l.

(** The order of Python on tuples of two integers. *)
Definition pair_compare (a b : nat * nat) : comparison :=
  match Nat.compare (fst a) (fst b) with
  | Eq => Nat.compare (snd a) (snd b)
  | c => c
  end.

(** *** Frames made from arrays *)

(** The row labels [0 .. n-1] that pandas gives a new frame. *)
Definition range_index (n : nat) : list Z := map Z.of_nat (seq 0 n).

(** [pd.DataFrame(data=data, columns=names)] for a two-dimensional [data]:
    the rows must be as wide as there are names. *)
Definition new_frame (rows : array2) (names : list string) : result DataFrame :=
  if forallb (fun row => Nat.eqb (length row) (length names)) rows
  then Ok {| index := range_index (length rows); columns := names; values := rows |}
  else Raise (ValueError "Shape of passed values does not match the columns").

(** A row of the frame at a position, or as many NaN as the frame has
    columns where the frame has no such row. *)
Definition row_or_nan (df : DataFrame) (i : nat) : list float :=
  match nth_error (values df) i with
  | Some row => row
  | None => repeat PrimFloat.nan (length (columns df))
  end.

(** [left.join(right)] for two frames with row labels [0 .. n-1]: the rows of
    [left], each followed by the row of [right] with the same label; a column
    label that both frames carry raises. *)
Definition df_join (left right : DataFrame) : result DataFrame :=
  if existsb (fun c => existsb (String.eqb c) (columns right)) (columns left)
  then Raise (ValueError "columns overlap but no suffix specified")
  else Ok {| index := index left;
             columns := columns left ++ columns right;
             values := map (fun ir => snd ir ++ row_or_nan right (fst ir))
                           (combine (seq 0 (length (values left))) (values left)) |}.

(** [pd.concat(frames, axis=1)] for frames with row labels [0 .. n-1]: the
    labels of the longest frame, and in each row the rows of the frames side
    by side. *)
Definition concat_range_frames (frames : list DataFrame) : DataFrame :=
  let n := fold_right Nat.max 0 (map df_len frames) in
  {| index := range_index n;
     columns := concat (map columns frames);
     values := map (fun i => concat (map (fun df => row_or_nan df i) frames)) (seq 0 n) |}.

(** [pd.DataFrame(data=np.asarray(cols).T, columns=names)] for a list of
    one-dimensional arrays.  Arrays of one length make the columns of a
    two-dimensional array, which is transposed into rows.  Of an empty list
    numpy makes a one-dimensional array without entries, which pandas takes
    for one column without rows: the constructor accepts it with one label
    only. *)
Definition frame_of_columns (cols : list (list float)) (names : list string)
  : result DataFrame :=
  match cols with
  | [] =>
      if Nat.eqb (length names) 1
      then Ok {| index := []; columns := names; values := [] |}
      else Raise (ValueError "Shape of passed values does not match the columns")
  | c :: _ =>
      if forallb (fun c' => Nat.eqb (length c') (length c)) cols
      then new_frame (map (fun f => map (fun col => nth f col 0%float) cols)
                          (seq 0 (length c))) names
      else Raise (ValueError "inhomogeneous shape")
  end.

Section Descriptors.
Context `{MdTraj}.

Definition set_traj (v : trajectory) : M unit := fun self =>
  (Ok tt, {| colvar := colvar self; descriptors := descriptors self; kbt := kbt self;
             stride := stride self; _DEV := _DEV self; traj := Some v;
             basins := basins self; selected_cvs := selected_cvs self; KDE := KDE self;
             minima := minima self |}).

Definition set_descriptors (v : DataFrame) : M unit := fun self =>
  (Ok tt, {| colvar := colvar self; descriptors := Some v; kbt := kbt self;
             stride := stride self; _DEV := _DEV self; traj := traj self;
             basins := basins self; selected_cvs := selected_cvs self; KDE := KDE self;
             minima := minima self |}).

(** Reading [self.traj.top]: [None] has no topology. *)
Definition get_traj_top : M trajectory := fun self =>
  match traj self with
  | Some t => (Ok t, self)
  | None => (Raise (AttributeError "'NoneType' object has no attribute 'top'"), self)
  end.

(** [Loader.load_trajectory(traj_dict)]; the dictionary is the function from
    its keys to their values. *)
Definition load_trajectory (traj_dict : string -> option string) : M unit :=
  traj_file <- lift (match traj_dict "trajectory"%string with
                     | Some f => Ok f
                     | None => Raise (KeyError "trajectory")
                     end) ;;
  let topo_file := traj_dict "topology"%string in
  self <- get_self ;;
  t <- lift (md_load traj_file topo_file (stride self)) ;;
  set_traj t ;;;
  if Nat.eqb (traj_len t) (df_len (colvar self))
  then ret tt
  else raise (AssertionError ("length traj (" ++ str_nat (traj_len t)
                              ++ ") != length colvar (" ++ str_nat (df_len (colvar self))
                              ++ ")")).

(** [prefix % (atom(i), "s" if atom(i).is_sidechain else "", atom(j), ...)]
    for the formats ["DIST. %s%s -- %s%s"] and the like. *)
Definition pair_label (prefix : string) (t : trajectory) (i j : nat) : string :=
  (prefix ++ atom_str (top_atom t i) ++ (if is_sidechain (top_atom t i) then "s" else "")
   ++ " -- " ++ atom_str (top_atom t j)
   ++ (if is_sidechain (top_atom t j) then "s" else ""))%string.

(** [Loader._CA_DISTANCES()] *)
Definition _CA_DISTANCES : M DataFrame :=
  t <- get_traj_top ;;
  let sel := top_select t "name CA" in
  let pairs := combinations2 sel in
  dist <- lift (compute_distances t pairs) ;;
  let names := map (fun ij => pair_label "DIST. " t (fst ij) (snd ij)) pairs in
  lift (new_frame dist names).

(** The arithmetic of numpy on the entries of an array of one dtype:
    [as_scalar] takes a Python number of an expression into the dtype of the
    array, the operations are those of the dtype. *)
Record dtype : Type := {
  as_scalar : float -> float;
  subtract : float -> float -> float;
  divide : float -> float -> float;
  power : float -> float -> float
}.

Definition float64 : dtype := {|
  as_scalar := fun c => c;
  subtract := PrimFloat.sub;
  divide := PrimFloat.div;
  power := np_power
|}.

(** A subtraction or a division of [float32] values is the binary64 one
    rounded to binary32: the binary64 result is exact to more than twice
    the 24 bits of binary32, so that rounding twice is rounding once. *)
Definition float32 : dtype := {|
  as_scalar := round32;
  subtract := fun a b => round32 (a - b);
  divide := fun a b => round32 (a / b);
  power := np_power32
|}.

(** [(1 - np.power((x-d0)/r0, n)) / (1 - np.power((x-d0)/r0, m))] for one
    entry [v] of [x]. *)
Definition contact_entry (t : dtype) (r0 d0 n m v : float) : float :=
  divide t
    (subtract t (as_scalar t 1)
       (power t (divide t (subtract t v (as_scalar t d0)) (as_scalar t r0)) (as_scalar t n)))
    (subtract t (as_scalar t 1)
       (power t (divide t (subtract t v (as_scalar t d0)) (as_scalar t r0)) (as_scalar t m))).

(** [Loader.contact_function(x, r0=1.0, d0=0, n=6, m=12)], on every entry of
    a two-dimensional array of a dtype. *)
Definition contact_function_of (t : dtype) (x : array2) (r0 d0 n m : float) : array2 :=
  map (map (contact_entry t r0 d0 n m)) x.

(** On an array of [float64]. *)
Definition contact_function (x : array2) (r0 d0 n m : float) : array2 :=
  contact_function_of float64 x r0 d0 n m.

(** The donors of [_HYDROGEN_BONDS]: the first atoms of the bonds from an
    oxygen or a nitrogen to a hydrogen, sorted and without repetition. *)
Definition hb_donors (t : trajectory) : list nat :=
  sorted_set Nat.compare
    (map (fun b => atom_index (fst b))
       (filter (fun b => (String.eqb (element_symbol (fst b)) "O"
                          || String.eqb (element_symbol (fst b)) "N")
                         && String.eqb (element_symbol (snd b)) "H")
               (top_bonds t))).

Definition atom_residue (t : trajectory) (i : nat) : string :=
  before_dash (atom_str (top_atom t i)).

(** The pairs of [_HYDROGEN_BONDS]: a donor and an acceptor that are two
    atoms of two residues, the smaller index first, sorted and without
    repetition. *)
Definition hb_pairs (t : trajectory) : list (nat * nat) :=
  let donors := hb_donors t in
  let acceptors := top_select t "symbol O or symbol N" in
  sorted_set pair_compare
    (flat_map (fun x =>
       flat_map (fun y =>
         if negb (Nat.eqb x y) && negb (String.eqb (atom_residue t x) (atom_residue t y))
         then [(Nat.min x y, Nat.max x y)]
         else []) acceptors) donors).

(** The binary64 value of the literal [0.35]. *)
Definition r0_hydrogen_bond : float := 0x1.6666666666666p-2%float.

(** [Loader._HYDROGEN_BONDS()]; the distances are [float32] values, and so
    are the contacts that numpy computes from them. *)
Definition _HYDROGEN_BONDS : M DataFrame :=
  t <- get_traj_top ;;
  let pairs := hb_pairs t in
  dist <- lift (compute_distances t pairs) ;;
  let names := map (fun xy => pair_label "HB_DIST " t (fst xy) (snd xy)) pairs in
  df_HB_DIST <- lift (new_frame dist names) ;;
  let contacts := contact_function_of float32 dist r0_hydrogen_bond 0 6 12 in
  let names := map (fun xy => pair_label "HB_CONTACT " t (fst xy) (snd xy)) pairs in
  df <- lift (new_frame contacts names) ;;
  lift (df_join df df_HB_DIST).

(** The body of the loop of [_get_dihedrals] over [enumerate(idx_list)]. *)
Fixpoint dihedral_loop (t : trajectory) (kind : string) (sincos : bool) (angles : array2)
    (idx_list : list (list nat)) (i : nat) (names : list string)
    (vals : list (list float)) : result (list string * list (list float)) :=
  match idx_list with
  | [] => Ok (names, vals)
  | idx :: rest =>
      rbind (getitem idx 0) (fun a0 =>
      let res := (fst (top_residue t a0) ++ str_Z (snd (top_residue t a0)))%string in
      let tag := if str_contains "chi" kind then "SIDECHAIN "%string else "BACKBONE "%string in
      rbind (rmap (fun row => getitem row i) angles) (fun col =>
      let names1 := names ++ [(tag ++ kind ++ " " ++ res)%string] in
      let vals1 := vals ++ [col] in
      if sincos
      then dihedral_loop t kind sincos angles rest (S i)
             (names1 ++ [(tag ++ "cos_" ++ kind ++ " " ++ res)%string;
                         (tag ++ "sin_" ++ kind ++ " " ++ res)%string])
             (vals1 ++ [map np_cos col; map np_sin col])
      else dihedral_loop t kind sincos angles rest (S i) names1 vals1))
  end.

(** [Loader._get_dihedrals(kind="phi", sincos=True)] *)
Definition _get_dihedrals (kind : string) (sincos : bool)
  : M (list string * list (list float)) :=
  t <- get_traj_top ;;
  dihedrals <- (if String.eqb kind "phi" then lift (compute_phi t)
                else if String.eqb kind "psi" then lift (compute_psi t)
                else if String.eqb kind "chi1" then lift (compute_chi1 t)
                else if String.eqb kind "chi2" then lift (compute_chi2 t)
                else raise (KeyError "supported values: phi,psi,chi1,chi2")) ;;
  lift (dihedral_loop t kind sincos (snd dihedrals) (fst dihedrals) 0 [] []).

(** The loop of [_ANGLES] over the kinds. *)
Fixpoint angles_loop (kinds : list string) (names_list : list string)
    (values_list : list (list float)) : M (list string * list (list float)) :=
  match kinds with
  | [] => ret (names_list, values_list)
  | kind :: rest =>
      nv <- _get_dihedrals kind true ;;
      angles_loop rest (names_list ++ fst nv) (values_list ++ snd nv)
  end.

(** [Loader._ANGLES()] *)
Definition _ANGLES : M DataFrame :=
  nv <- angles_loop ["phi"; "psi"; "chi1"; "chi2"]%string [] [] ;;
  lift (frame_of_columns (snd nv) (fst nv)).

(** [Loader.compute_descriptors()] *)
Definition compute_descriptors : M unit :=
  self <- get_self ;;
  match traj self with
  | None => raise (KeyError "Trajectory not loaded. Call self.load_trajectory() first.")
  | Some _ =>
      ca <- _CA_DISTANCES ;;
      hb <- _HYDROGEN_BONDS ;;
      ang <- _ANGLES ;;
      let d := concat_range_frames [ca; hb; ang] in
      set_descriptors d ;;;
      if Nat.eqb (df_len (colvar self)) (df_len d)
      then ret tt
      else raise (AssertionError "mismatch between colvar and descriptor length.")
  end.
End Descriptors.

(** *** Vocabulary of the statements on descriptors *)

Section DescriptorVocabulary.
Context `{MdTraj}.

(** The kinds of dihedral angles that [_get_dihedrals] knows, and the
    computation of [mdtraj] that it calls for each. *)
Definition supported_kind (kind : string) : bool :=
  String.eqb kind "phi" || String.eqb kind "psi"
  || String.eqb kind "chi1" || String.eqb kind "chi2".

Definition dihedrals_of_kind (t : trajectory) (kind : string)
  : result (list (list nat) * array2) :=
  if String.eqb kind "phi" then compute_phi t
  else if String.eqb kind "psi" then compute_psi t
  else if String.eqb kind "chi1" then compute_chi1 t
  else compute_chi2 t.

(** The word that starts the label of a dihedral angle. *)
Definition dihedral_tag (kind : string) : string :=
  if str_contains "chi" kind then "SIDECHAIN " else "BACKBONE ".

(** The contact of one distance in [float32], with the constants of
    [_HYDROGEN_BONDS]: [q] is the distance over the binary32 value of
    [0.35]. *)
Definition hb_contact (v : float) : float :=
  let q := round32 (round32 (v - 0) / round32 r0_hydrogen_bond) in
  round32 (round32 (1 - np_power32 q 6) / round32 (1 - np_power32 q 12)).
End DescriptorVocabulary.

(** ** A concrete topology

    Three residues with their backbone nitrogen, hydrogen, alpha carbon and
    oxygen, and the hydroxyl group of the serine; a trajectory of seven
    frames in which every pair of atoms keeps its distance.  The functions of
    [numpy] are stand-ins: the sixth and twelfth powers by multiplication,
    and the first terms of the series of the cosine and of the sine. *)
Module ExampleTraj.
Import Example.

Definition atoms : list atom := [
  {| atom_index := 0; atom_str := "GLY1-N"; element_symbol := "N"; is_sidechain := false |};
  {| atom_index := 1; atom_str := "GLY1-H"; element_symbol := "H"; is_sidechain := false |};
  {| atom_index := 2; atom_str := "GLY1-CA"; element_symbol := "C"; is_sidechain := false |};
  {| atom_index := 3; atom_str := "GLY1-O"; element_symbol := "O"; is_sidechain := false |};
  {| atom_index := 4; atom_str := "SER2-N"; element_symbol := "N"; is_sidechain := false |};
  {| atom_index := 5; atom_str := "SER2-H"; element_symbol := "H"; is_sidechain := false |};
  {| atom_index := 6; atom_str := "SER2-CA"; element_symbol := "C"; is_sidechain := false |};
  {| atom_index := 7; atom_str := "SER2-OG"; element_symbol := "O"; is_sidechain := true |};
  {| atom_index := 8; atom_str := "SER2-HG"; element_symbol := "H"; is_sidechain := true |};
  {| atom_index := 9; atom_str := "SER2-O"; element_symbol := "O"; is_sidechain := false |};
  {| atom_index := 10; atom_str := "ALA3-N"; element_symbol := "N"; is_sidechain := false |};
  {| atom_index := 11; atom_str := "ALA3-H"; element_symbol := "H"; is_sidechain := false |};
  {| atom_index := 12; atom_str := "ALA3-CA"; element_symbol := "C"; is_sidechain := false |};
  {| atom_index := 13; atom_str := "ALA3-O"; element_symbol := "O"; is_sidechain := false |}
]%string.

Definition atom_at (i : nat) : atom :=
  nth i atoms {| atom_index := i; atom_str := ""; element_symbol := ""; is_sidechain := false |}.

Definition bonds : list (atom * atom) :=
  map (fun ij => (atom_at (fst ij), atom_at (snd ij)))
      [(0, 1); (0, 2); (2, 3); (4, 5); (4, 6); (6, 7); (7, 8); (6, 9); (10, 11); (10, 12);
       (12, 13)].

Definition select (query : string) : list nat :=
  if String.eqb query "name CA" then [2; 6; 12]
  else if String.eqb query "symbol O or symbol N" then [0; 3; 4; 7; 9; 10; 13]
  else [].

Definition residue (i : nat) : string * Z :=
  if i <? 4 then ("GLY"%string, 1%Z)
  else if i <? 10 then ("SER"%string, 2%Z)
  else ("ALA"%string, 3%Z).

(** The distance of a pair: the binary32 value of [0.35] from the first
    nitrogen, [0.5] between any other two atoms. *)
Definition distance (ij : nat * nat) : float :=
  if Nat.eqb (fst ij) 0 then 0x1.666666p-2%float else 0.5%float.

Definition frames : nat := 7.

Definition power (x n : float) : float :=
  let x6 := (x * x * x * x * x * x)%float in
  if (n =? 6)%float then x6 else if (n =? 12)%float then (x6 * x6)%float else x.

Definition power32 (x n : float) : float := round32 (power x n).

#[export] Instance mdtraj : MdTraj := {|
  md_load := fun file top stride_val =>
    if String.eqb file "traj.xtc" then Ok tt
    else Raise (ValueError "no such trajectory");
  traj_len := fun _ => frames;
  top_select := fun _ => select;
  top_atom := fun _ => atom_at;
  top_bonds := fun _ => bonds;
  top_residue := fun _ => residue;
  compute_distances := fun _ pairs => Ok (repeat (map distance pairs) frames);
  compute_phi := fun _ => Ok ([[2; 4; 6; 9]], repeat [0.5%float] frames);
  compute_psi := fun _ => Ok ([[4; 6; 9; 10]], repeat [0.25%float] frames);
  compute_chi1 := fun _ => Ok ([[4; 6; 7; 8]], repeat [1%float] frames);
  compute_chi2 := fun _ => Ok ([], repeat [] frames);
  np_cos := fun x => (1 - x * x / 2)%float;
  np_sin := fun x => x;
  np_power := power;
  np_power32 := power32
|}.

(** The dictionary of a trajectory file with its topology. *)
Definition traj_dict (key : string) : option string :=
  if String.eqb key "trajectory" then Some "traj.xtc"%string
  else if String.eqb key "topology" then Some "top.pdb"%string
  else None.

(** The loader without descriptors once the trajectory is loaded. *)
Definition with_traj : Loader := {|
  colvar := colvar7;
  descriptors := None;
  kbt := 2.5%float;
  stride := 1%Z;
  _DEV := false;
  traj := Some tt;
  basins := None;
  selected_cvs := None;
  KDE := None;
  minima := None
|}.

End ExampleTraj.

Unset Implicit Arguments.

(** * Properties *)

(** ** The order of binary64 values

    Comparisons of primitive floats are those of their IEEE-754 views
    ([Prim2SF]); on values that are numbers they form a total preorder, and a
    comparison that holds never involves a NaN. *)
Module FloatOrder.


Lemma SFcompare_lt_trans (x y z : spec_float) :
  SFcompare x y = Some Lt -> SFcompare y z = Some Lt -> SFcompare x z = Some Lt.
Proof.
  destruct x as [sx|sx| |sx mx ex], y as [sy|sy| |sy my ey], z as [sz|sz| |sz mz ez];
    simpl; try discriminate;
    try (destruct sx; try discriminate); try (destruct sy; try discriminate);
    try (destruct sz; try discriminate); try reflexivity;
    change (Pos.compare_cont Eq) with Pos.compare;
    destruct (Z.compare_spec ex ey), (Z.compare_spec ey ez); simpl; try discriminate;
    destruct (Pos.compare_spec mx my), (Pos.compare_spec my mz); simpl; try discriminate;
    intros _ _; f_equal;
    destruct (Z.compare_spec ex ez); simpl; try lia; try reflexivity;
    destruct (Pos.compare_spec mx mz); simpl; try lia; reflexivity.
Qed.

(** Two values that compare equal compare alike with any third one. *)
Lemma SFcompare_eq_r (x y z : spec_float) :
  SFcompare y z = Some Eq -> SFcompare x y = SFcompare x z.
Proof.
  destruct y as [sy|sy| |sy my ey], z as [sz|sz| |sz mz ez]; simpl; try discriminate;
    try (destruct sy; discriminate); try (destruct sz; discriminate);
    try (destruct sy, sz; try discriminate; intros _; destruct x; reflexivity).
  change (Pos.compare_cont Eq) with Pos.compare.
  destruct sy, sz; try discriminate;
    destruct (Z.compare_spec ey ez); simpl; try discriminate;
    destruct (Pos.compare_spec my mz); simpl; try discriminate;
    intros _; subst; reflexivity.
Qed.

Lemma SFcompare_refl (x : spec_float) : x <> S754_nan -> SFcompare x x = Some Eq.
Proof.
  destruct x as [s|s| |s m e]; simpl; intros N; try reflexivity; try congruence.
  - destruct s; reflexivity.
  - change (Pos.compare_cont Eq) with Pos.compare.
    rewrite Z.compare_refl, Pos.compare_refl. destruct s; reflexivity.
Qed.




Lemma ltb_leb_trans (x y z : float) :
  (x <? y)%float = true -> (y <=? z)%float = true -> (x <? z)%float = true.
Proof.
  rewrite !ltb_spec, leb_spec. unfold SFltb, SFleb.
  destruct (SFcompare (Prim2SF x) (Prim2SF y)) as [[]|] eqn:Exy; try discriminate.
  destruct (SFcompare (Prim2SF y) (Prim2SF z)) as [[]|] eqn:Eyz; try discriminate; intros _ _.
  - rewrite <- (SFcompare_eq_r (Prim2SF x) _ _ Eyz), Exy. reflexivity.
  - rewrite (SFcompare_lt_trans _ _ _ Exy Eyz). reflexivity.
Qed.



End FloatOrder.

(** ** Results over lists *)

Lemma rmap_Forall2 (A B : Type) (f : A -> result B) (l : list A) (ys : list B) :
  rmap f l = Ok ys <-> Forall2 (fun x y => f x = Ok y) l ys.
Proof.
  revert ys. induction l as [|x l IH]; intros ys; simpl.
  - split.
    + intros E. injection E as <-. constructor.
    + intros F. inversion F. reflexivity.
  - split.
    + destruct (f x) as [y|e] eqn:Ex; simpl; [|discriminate].
      destruct (rmap f l) as [zs|e] eqn:El; simpl; [|discriminate].
      intros E. injection E as <-. constructor; [assumption|]. now apply IH.
    + intros F. inversion F as [|x' y l' zs Ex Fl]; subst.
      apply IH in Fl. rewrite Ex, Fl. reflexivity.
Qed.

Lemma rmap_total (A B : Type) (f : A -> result B) (g : A -> B) (l : list A) :
  Forall (fun x => f x = Ok (g x)) l -> rmap f l = Ok (map g l).
Proof.
  induction 1 as [|x l Ex _ IH]; simpl; [reflexivity|].
  rewrite Ex, IH. reflexivity.
Qed.

Lemma Forall2_nth_error (A B : Type) (R : A -> B -> Prop) (l : list A) (ys : list B) :
  Forall2 R l ys ->
  forall i x, nth_error l i = Some x -> exists y, nth_error ys i = Some y /\ R x y.
Proof.
  induction 1 as [|a b l ys Rab _ IH]; intros [|i] x E; simpl in *; try discriminate.
  - injection E as <-. eauto.
  - eauto.
Qed.

(** ** Slices and splits *)

Lemma nth_error_every_from (A : Type) (step wait : nat) (l : list A) (i : nat) :
  0 < step ->
  nth_error (every_from step wait l) i = nth_error l (wait + i * step).
Proof.
  intros Hs. revert wait i.
  induction l as [|x l IH]; intros wait i; simpl.
  - destruct i, (wait + _); reflexivity.
  - destruct wait as [|w].
    + destruct i as [|i]; [reflexivity|].
      change (nth_error (every_from step (pred step) l) i
              = nth_error (x :: l) (S i * step)).
      rewrite IH. destruct step as [|s]; [lia|].
      replace (S i * S s) with (S (pred (S s) + i * S s)) by (simpl; lia).
      reflexivity.
    + rewrite IH. reflexivity.
Qed.

Lemma every_from_one (A : Type) (l : list A) : every_from 1 0 l = l.
Proof.
  induction l as [|x l IH]; simpl; [reflexivity|]. now rewrite IH.
Qed.

Lemma concat_split_sizes (A : Type) (sizes : list nat) (l : list A) :
  length l <= list_sum sizes -> concat (split_sizes sizes l) = l.
Proof.
  revert l. induction sizes as [|n sizes IH]; intros l Hl; simpl in *.
  - destruct l; [reflexivity|simpl in Hl; lia].
  - rewrite IH.
    + apply firstn_skipn.
    + rewrite length_skipn. lia.
Qed.

Lemma list_sum_repeat (n k : nat) : list_sum (repeat n k) = k * n.
Proof.
  induction k as [|k IH]; simpl; [reflexivity|]. rewrite IH. reflexivity.
Qed.

Lemma list_sum_section_sizes (Ntotal Nsections : nat) :
  0 < Nsections -> list_sum (section_sizes Ntotal Nsections) = Ntotal.
Proof.
  intros Hk. unfold section_sizes.
  rewrite list_sum_app, !list_sum_repeat.
  pose proof (Nat.div_mod_eq Ntotal Nsections) as E.
  pose proof (Nat.mod_upper_bound Ntotal Nsections ltac:(lia)) as B.
  nia.
Qed.

Lemma length_section_sizes (Ntotal Nsections : nat) :
  0 < Nsections -> length (section_sizes Ntotal Nsections) = Nsections.
Proof.
  intros Hk. unfold section_sizes.
  rewrite length_app, !repeat_length.
  pose proof (Nat.mod_upper_bound Ntotal Nsections ltac:(lia)). lia.
Qed.

Lemma length_split_sizes (A : Type) (sizes : list nat) (l : list A) :
  length (split_sizes sizes l) = length sizes.
Proof.
  revert l. induction sizes as [|n sizes IH]; intros l; simpl; [reflexivity|].
  now rewrite IH.
Qed.

(** [np.array_split] into a number of sections from 1 to the number of
    rows succeeds, and the sections, in order, make up the array again. *)
Lemma array_split_concat (A : Type) (ary : list A) (sections : Z) :
  (1 <= sections <= Z.of_nat (length ary))%Z ->
  exists chunks, array_split ary sections = Ok chunks /\
                 chunks <> [] /\ concat chunks = ary.
Proof.
  intros Hs. unfold array_split.
  destruct (sections <=? 0)%Z eqn:E; [lia|].
  destruct (Z.of_nat (length ary) <? sections)%Z eqn:E2; [lia|].
  rewrite andb_false_l.
  assert (Hk : 0 < Z.to_nat sections) by lia.
  eexists. split; [reflexivity|]. split.
  - intros C. apply (f_equal (@length _)) in C.
    rewrite length_split_sizes, length_section_sizes in C by assumption.
    simpl in C. lia.
  - apply concat_split_sizes. rewrite list_sum_section_sizes by assumption. lia.
Qed.

(** The loop that appends the free energy of each chunk is a [map]. *)
Lemma chunk_loop_map (fes : array2 -> list float) (chunks : list array2) :
  chunk_loop fes chunks = map fes chunks.
Proof.
  unfold chunk_loop.
  assert (G : forall acc, fold_left (fun fes_pts chunk => fes_pts ++ [fes chunk]) chunks acc
                          = acc ++ map fes chunks).
  { induction chunks as [|c chunks IH]; intros acc; simpl.
    - now rewrite app_nil_r.
    - rewrite IH, <- app_assoc. reflexivity. }
  apply G.
Qed.

(** ** [np.add.reduce] *)


(** The bound on the halvings is never reached: a greater one gives the same
    sum. *)
Lemma pairwise_sum_depth (d d' : nat) (a : list float) :
  length a <= d -> length a <= d' -> pairwise_sum d a = pairwise_sum d' a.
Proof.
  revert d' a. induction d as [|d IH]; intros d' a Hd Hd'.
  - destruct a; [|simpl in Hd; lia]. destruct d'; reflexivity.
  - destruct d' as [|d'].
    + destruct a; [|simpl in Hd'; lia]. reflexivity.
    + cbn [pairwise_sum]. destruct (length a <? 8) eqn:E8; [reflexivity|].
      destruct (length a <=? 128) eqn:E128; [reflexivity|].
      apply Nat.leb_gt in E128.
      pose proof (Nat.mod_upper_bound (length a / 2) 8 ltac:(lia)) as Hm.
      pose proof (Nat.div_mod_eq (length a) 2) as Hq.
      pose proof (Nat.mod_upper_bound (length a) 2 ltac:(lia)) as Hr.
      f_equal; apply IH; rewrite ?length_firstn, ?length_skipn; lia.
Qed.

(** ** [np.argmin] *)

Lemma argmin_loop_range (ip : list float) (i : nat) (mp : float) (min_ind : nat) :
  min_ind < i -> argmin_loop ip i mp min_ind < i + length ip.
Proof.
  revert i mp min_ind. induction ip as [|x rest IH]; intros i mp min_ind Hi; simpl.
  - lia.
  - destruct (negb (mp <=? x)%float).
    + destruct (PrimFloat.is_nan x); [lia|].
      specialize (IH (S i) x i). lia.
    + specialize (IH (S i) mp min_ind). lia.
Qed.

Lemma np_argmin_range (a : list float) :
  a <> [] -> exists k, np_argmin a = Ok k /\ k < length a.
Proof.
  destruct a as [|x rest]; [congruence|]. intros _. simpl.
  eexists. split; [reflexivity|].
  destruct (PrimFloat.is_nan x); [lia|].
  pose proof (argmin_loop_range rest 1 x 0 (Nat.lt_0_succ 0)). lia.
Qed.





Lemma np_argmin_nearest (a : list float) :
  a <> [] -> np_argmin a = Ok (nearest a) /\ nearest a < length a.
Proof.
  intros Ha. destruct (np_argmin_range a Ha) as (k & E & Hk).
  unfold nearest. rewrite E. auto.
Qed.

(** ** Messages *)

Lemma string_app_assoc (a b c : string) : ((a ++ b) ++ c = a ++ (b ++ c))%string.
Proof.
  induction a as [|ch a IH]; simpl; [reflexivity|]. now rewrite IH.
Qed.

Lemma broadcast_error_text (N D M D' : nat) :
  broadcast_error [N; 1; D] [M; D']
  = ValueError ("operands could not be broadcast together with shapes "
                ++ "(" ++ str_nat N ++ ",1," ++ str_nat D ++ ")"
                ++ " "
                ++ "(" ++ str_nat M ++ "," ++ str_nat D' ++ ")"
                ++ " ").
Proof.
  unfold broadcast_error, shape_text. cbn [map String.concat].
  f_equal. f_equal.
  change (str_nat 1) with "1"%string.
  rewrite !string_app_assoc. reflexivity.
Qed.

(** A list of labels of which one is carried by no column raises the
    [KeyError] of pandas. *)
Lemma getitem_list_missing `{Collaborators} (df : DataFrame) (names : list string)
    (name : string) :
  In name names ->
  has_column name df = false ->
  getitem_list df names = Raise (KeyError (pd_not_in_index names (columns df))).
Proof.
  intros Hin Hc. unfold getitem_list.
  generalize (pd_not_in_index names (columns df)). intros msg.
  assert (P : forall cols p, existsb (String.eqb name) cols = false ->
                             col_positions_from p name cols = []).
  { intros cols. induction cols as [|c cols IH]; intros p E; [reflexivity|].
    simpl in *. apply orb_false_elim in E as [E1 E2].
    rewrite String.eqb_sym, E1. now apply IH. }
  assert (G : rmap (fun n => match col_positions n (columns df) with
                             | [] => Raise (KeyError msg)
                             | ps => Ok ps
                             end) names = Raise (KeyError msg)).
  { induction names as [|n names IH]; [destruct Hin|]. cbn [rmap].
    destruct (col_positions n (columns df)) as [|p ps] eqn:En; [reflexivity|].
    cbn [rbind]. destruct Hin as [->|Hin].
    - unfold col_positions in En. rewrite (P _ 0 Hc) in En. discriminate.
    - now rewrite (IH Hin). }
  now rewrite G.
Qed.

(** ** Basin selection in closed form *)

Section BasinSelection.
Context `{Collaborators}.

Lemma broadcast_sub_same_length (shape_a shape_b : list nat) (a b : list float) :
  length a = length b ->
  broadcast_sub shape_a shape_b a b
  = Ok (map (fun ab => (fst ab - snd ab)%float) (combine a b)).
Proof.
  intros E. unfold broadcast_sub. rewrite E, Nat.eqb_refl. reflexivity.
Qed.

Lemma pairwise_norms_euclid (D : nat) (positions minima_arg : array2) :
  Forall (fun x => length x = D) positions ->
  Forall (fun m => length m = D) minima_arg ->
  pairwise_norms positions minima_arg
  = Ok (map (fun x => map (euclid x) minima_arg) positions).
Proof.
  intros Hp Hm. unfold pairwise_norms. apply rmap_total.
  rewrite Forall_forall in Hp |- *. intros x Hx.
  apply rmap_total. rewrite Forall_forall in Hm |- *. intros m Hin.
  rewrite broadcast_sub_same_length by (rewrite (Hp x Hx), (Hm m Hin); reflexivity).
  simpl. unfold norm, euclid. now rewrite map_map.
Qed.

Lemma argmin_axis1_assigned (positions minima_arg : array2) :
  minima_arg <> [] ->
  argmin_axis1 (length minima_arg) (map (fun x => map (euclid x) minima_arg) positions)
  = Ok (map (assigned minima_arg) positions).
Proof.
  intros Hm. unfold argmin_axis1.
  destruct (length minima_arg) eqn:El; [destruct minima_arg; [congruence|discriminate]|].
  rewrite <- (map_map (fun x => map (euclid x) minima_arg) nearest).
  apply rmap_total. rewrite Forall_forall. intros a Ha.
  apply in_map_iff in Ha as (x & <- & _).
  apply np_argmin_nearest. destruct minima_arg; [congruence|discriminate].
Qed.

Lemma assigned_range (minima_arg : array2) (x : list float) :
  minima_arg <> [] -> assigned minima_arg x < length minima_arg.
Proof.
  intros Hm. unfold assigned.
  destruct (np_argmin_nearest (map (euclid x) minima_arg)) as [_ Hk].
  - destruct minima_arg; [congruence|discriminate].
  - now rewrite length_map in Hk.
Qed.

Lemma fes_closure_map (kT : float) (K : gaussian_kde) (X : array2) :
  fes_closure kT K X = map (FES kT K) X.
Proof.
  unfold fes_closure, kde_logpdf, FES. now rewrite map_map.
Qed.

Lemma reference_levels (f : list float -> float) (positions minima_arg : array2) :
  minima_arg <> [] ->
  rmap (getitem (map f minima_arg)) (map (assigned minima_arg) positions)
  = Ok (map (fun x => f (basin_minimum minima_arg x)) positions).
Proof.
  intros Hm.
  rewrite <- (map_map (assigned minima_arg) (fun k => f (nth k minima_arg []))).
  apply rmap_total. rewrite Forall_forall. intros k Hk.
  apply in_map_iff in Hk as (x & <- & _).
  unfold getitem. rewrite nth_error_map.
  pose proof (assigned_range minima_arg x Hm) as Hr.
  rewrite (nth_error_nth' minima_arg [] Hr). reflexivity.
Qed.

(** With [memory_saver], the free energies of the chunks, put end to end,
    are the free energies of the positions. *)
Lemma chunked_fes (kT : float) (dev : bool) (K : gaussian_kde) (positions : array2)
    (splits : Z) :
  (1 <= splits <= Z.of_nat (length positions))%Z ->
  rbind (array_split positions splits) (fun chunks =>
    hstack (if dev then chunk_loop (fes_closure kT K) (tqdm chunks)
            else chunk_loop (fes_closure kT K) chunks))
  = Ok (fes_closure kT K positions).
Proof.
  intros Hs.
  destruct (array_split_concat _ positions splits Hs) as (chunks & E & Hne & Hc).
  rewrite E. simpl. unfold tqdm.
  assert (G : hstack (chunk_loop (fes_closure kT K) chunks) = Ok (fes_closure kT K positions)).
  { rewrite chunk_loop_map. unfold hstack.
    destruct (map (fes_closure kT K) chunks) eqn:Em.
    - destruct chunks; [congruence|discriminate].
    - rewrite <- Em, <- Hc. f_equal.
      unfold fes_closure, kde_logpdf.
      rewrite !concat_map, !map_map. reflexivity. }
  destruct dev; exact G.
Qed.



(** A call of [_basin_selection] on an object that has its estimator reads
    the object and leaves it as it is. *)
Lemma _basin_selection_reads (self : Loader) (K : gaussian_kde) (minima_arg : array2)
    (fes_cutoff : float) (memory_saver : bool) (splits : Z) :
  KDE self = Some K ->
  _basin_selection minima_arg fes_cutoff memory_saver splits self
  = (rbind (basin_differences (kbt self) (_DEV self) K minima_arg memory_saver splits)
           (basin_frame fes_cutoff), self).
Proof.
  intros HK.
  unfold _basin_selection, basin_differences, basin_frame, self_fes, bind, get_KDE,
    get_self, lift, ret.
  rewrite HK. simpl.
  destruct (pairwise_norms (dataset K) minima_arg) as [norms|e]; simpl; [|reflexivity].
  destruct (argmin_axis1 (length minima_arg) norms) as [classes|e]; simpl; [|reflexivity].
  rewrite HK. simpl.
  destruct (rmap _ classes) as [ref_fes|e]; simpl; [|reflexivity].
  destruct memory_saver.
  - destruct (array_split (dataset K) splits) as [chunks|e]; simpl; [|reflexivity].
    destruct (hstack _) as [fes_pts|e]; simpl; [|reflexivity].
    destruct (broadcast_sub _ _ fes_pts ref_fes) as [diff|e]; simpl; reflexivity.
  - simpl.
    destruct (broadcast_sub _ _ _ ref_fes) as [diff|e]; simpl; reflexivity.
Qed.

Lemma _basin_selection_without_KDE (self : Loader) (minima_arg : array2)
    (fes_cutoff : float) (memory_saver : bool) (splits : Z) :
  KDE self = None ->
  _basin_selection minima_arg fes_cutoff memory_saver splits self
  = (Raise (AttributeError "'Loader' object has no attribute 'KDE'"), self).
Proof.
  intros HK. unfold _basin_selection, bind, get_KDE. rewrite HK. reflexivity.
Qed.

(** With [memory_saver] and a number of sections from 1 to the number of
    samples, the classes and the differences are those of the evaluation in
    one piece. *)
Lemma basin_differences_memory_saver (kT : float) (dev : bool) (K : gaussian_kde)
    (minima_arg : array2) (splits : Z) :
  (1 <= splits <= Z.of_nat (length (dataset K)))%Z ->
  basin_differences kT dev K minima_arg true splits
  = basin_differences kT dev K minima_arg false splits.
Proof.
  intros Hs. unfold basin_differences. now rewrite chunked_fes.
Qed.

(** Called on an array of minima without rows (of shape [(0, D)]),
    [_basin_selection] itself stops at [np.argmin] with a [ValueError]. *)
Lemma _basin_selection_on_no_minima (self : Loader) (K : gaussian_kde) (fes_cutoff : float)
    (memory_saver : bool) (splits : Z) :
  KDE self = Some K ->
  _basin_selection [] fes_cutoff memory_saver splits self
  = (Raise (ValueError "attempt to get argmin of an empty sequence"), self).
Proof.
  intros HK. rewrite (_basin_selection_reads self K) by assumption.
  unfold basin_differences, pairwise_norms. simpl.
  rewrite (rmap_total _ _ _ (fun _ => []) (dataset K)); [reflexivity|].
  rewrite Forall_forall. reflexivity.
Qed.

End BasinSelection.

(** ** Basin assignment and selection *)


Section Claims.
Context `{Collaborators}.




(** C4. For every number of sections from 1 to the number of samples, basin
    selection with [memory_saver] (samples split into that many contiguous
    chunks, free energy evaluated chunk by chunk, results put end to end)
    returns exactly what the evaluation in one piece returns: the same basin
    indices and the same selection flags. *)
Theorem memory_saver_same_result (self : Loader) (K : gaussian_kde) (minima_arg : array2)
    (fes_cutoff : float) (splits : Z) :
  KDE self = Some K ->
  (1 <= splits <= Z.of_nat (length (dataset K)))%Z ->
  _basin_selection minima_arg fes_cutoff true splits self
  = _basin_selection minima_arg fes_cutoff false splits self.
Proof.
  intros HK Hs. rewrite !(_basin_selection_reads self K) by assumption.
  now rewrite basin_differences_memory_saver.
Qed.

(** C6. The selection grows with the cutoff: when the call with cutoff [c1]
    returns a table and [c1 <= c2], the call with [c2] returns a table with
    the same basins in which every sample selected at [c1] is selected. *)
Theorem selection_monotone_in_cutoff (self self1 : Loader) (minima_arg : array2)
    (memory_saver : bool) (splits : Z) (c1 c2 : float) (df1 : BasinsFrame) :
  (c1 <=? c2)%float = true ->
  _basin_selection minima_arg c1 memory_saver splits self = (Ok df1, self1) ->
  exists df2,
    _basin_selection minima_arg c2 memory_saver splits self = (Ok df2, self1) /\
    basin df2 = basin df1 /\
    forall i, nth_error (selection df1) i = Some true ->
              nth_error (selection df2) i = Some true.
Proof.
  intros Hc H1. destruct (KDE self) as [K|] eqn:HK.
  - rewrite (_basin_selection_reads self K) in H1 |- * by assumption.
    destruct (basin_differences _ _ K minima_arg memory_saver splits) as [[classes diff]|e];
      simpl in *; [|discriminate].
    unfold basin_frame, new_basins_frame in *. simpl in *.
    rewrite length_map in *.
    destruct (Nat.eqb (length diff) (length classes)); [|discriminate].
    injection H1 as <- <-.
    eexists. split; [reflexivity|]. split; [reflexivity|]. simpl.
    intros i. rewrite !nth_error_map.
    destruct (nth_error diff i) as [d|]; simpl; [|discriminate].
    intros E. injection E as E. f_equal.
    exact (FloatOrder.ltb_leb_trans _ _ _ E Hc).
  - rewrite _basin_selection_without_KDE in H1 by assumption. discriminate.
Qed.

End Claims.

(** ** The constructor, the free-energy surface and [identify_states] *)

Section Pipeline.
Context `{Collaborators}.

#[local] Arguments String.eqb : simpl never.
#[local] Arguments existsb : simpl never.

Lemma iloc_rows_step_positive (s : Z) (df : DataFrame) :
  (0 < s)%Z ->
  iloc_rows_step s df
  = Ok {| index := every_from (Z.to_nat s) 0 (index df);
          columns := columns df;
          values := every_from (Z.to_nat s) 0 (values df) |}.
Proof.
  intros Hs. unfold iloc_rows_step, slice_step.
  destruct s as [|p|p]; try lia. reflexivity.
Qed.

(** A loader that the constructor returns has no trajectory, no basins and
    no estimator yet, and holds the temperature it was given. *)
Lemma Loader_init_fresh (colvar_arg : table_source) (descriptors_arg : option table_source)
    (kbt_arg : option float) (stride_arg : option Z) (dev_arg : option bool) (self : Loader) :
  Loader_init colvar_arg descriptors_arg kbt_arg stride_arg dev_arg = Ok self ->
  basins self = None /\ KDE self = None /\ minima self = None /\
  kbt self = keyword kbt_default kbt_arg.
Proof.
  unfold Loader_init. intros E.
  destruct (load_dataframe colvar_arg) as [loaded|e]; simpl in E; [|discriminate].
  destruct (iloc_rows_step _ loaded) as [cv|e]; simpl in E; [|discriminate].
  match type of E with rbind ?d _ = _ => destruct d as [descr|e] end;
    simpl in E; [|discriminate].
  injection E as <-. simpl. auto.
Qed.

(** C9. For a positive stride (1 when none is given), the stored
    collective-variable table is made of every stride-th row of the loaded
    table, from the first row on and in the original order, labels and values
    alike, and stride 1 keeps the table as it is; the stored descriptor table
    is made of the same rows of the loaded descriptors, each without its
    entries in the columns labelled [time]. *)
Theorem stride_keeps_every_sth_row (colvar_arg : table_source)
    (descriptors_arg : option table_source) (kbt_arg : option float) (stride_arg : option Z)
    (dev_arg : option bool) (loaded : DataFrame) (self : Loader) :
  let s := Z.to_nat (keyword stride_default stride_arg) in
  (0 < keyword stride_default stride_arg)%Z ->
  load_dataframe colvar_arg = Ok loaded ->
  Loader_init colvar_arg descriptors_arg kbt_arg stride_arg dev_arg = Ok self ->
  columns (colvar self) = columns loaded /\
  (forall i, nth_error (index (colvar self)) i = nth_error (index loaded) (i * s)) /\
  (forall i, nth_error (values (colvar self)) i = nth_error (values loaded) (i * s)) /\
  (s = 1 -> colvar self = loaded) /\
  (forall src loaded_d,
      descriptors_arg = Some src -> load_dataframe src = Ok loaded_d ->
      exists d, descriptors self = Some d /\
        (forall i, nth_error (index d) i = nth_error (index loaded_d) (i * s)) /\
        (forall i, nth_error (values d) i
                   = option_map (without_time (columns loaded_d))
                                (nth_error (values loaded_d) (i * s))) /\
        (s = 1 -> has_column "time" loaded_d = false -> d = loaded_d)).
Proof.
  intros s Hs Hl. unfold Loader_init. rewrite Hl. simpl.
  rewrite (iloc_rows_step_positive _ loaded Hs). simpl. fold s.
  assert (Hpos : 0 < s) by (unfold s; lia).
  intros E.
  match type of E with rbind ?d _ = _ => destruct d as [descr|e] eqn:Ed end;
    simpl in E; [|discriminate].
  injection E as <-. simpl.
  split; [reflexivity|].
  split; [intros i; now rewrite nth_error_every_from|].
  split; [intros i; now rewrite nth_error_every_from|].
  split.
  { intros ->. rewrite !every_from_one. now destruct loaded. }
  intros src loaded_d -> Hd. rewrite Hd in Ed. simpl in Ed.
  rewrite (iloc_rows_step_positive _ loaded_d Hs) in Ed. simpl in Ed. fold s in Ed.
  match type of Ed with (if ?c then _ else _) = _ => destruct c end; [|discriminate].
  injection Ed as <-. eexists. split; [reflexivity|].
  unfold has_column, without_time. simpl.
  destruct (existsb (String.eqb "time") (columns loaded_d)); simpl.
  - split; [intros i; now rewrite nth_error_every_from|].
    split; [|discriminate].
    intros i. now rewrite nth_error_map, nth_error_every_from.
  - split; [intros i; now rewrite nth_error_every_from|].
    split.
    + intros i. rewrite nth_error_every_from by assumption. simpl.
      now destruct (nth_error (values loaded_d) (i * s)).
    + intros -> _. rewrite !every_from_one. now destruct loaded_d.
Qed.

(** C1, as the code has it. The free-energy surface does not depend on the
    log-weights: [approximate_FES] never reads its [logweights] argument (nor
    [bw_method]) and builds the estimator from the samples alone, and
    [identify_states] with any one-dimensional array of log-weights ends as
    the call without log-weights does, with the same fit, minima and
    basins. *)
Theorem approximate_FES_ignores_logweights (collective_vars : list string)
    (bw_method logweights : pyobj) (bounds : list (float * float))
    (fes_cutoff : option float) (optimizer : option string)
    (optimizer_kwargs : method_kwargs) (memory_saver : option bool) (splits : option Z)
    (self : Loader) :
  approximate_FES collective_vars bw_method logweights self
  = approximate_FES collective_vars PyNone PyNone self /\
  forall (n : nat) (weights : list float),
    identify_states collective_vars bounds
      (PyNdarray {| shape := [n]; data := weights |}) fes_cutoff optimizer
      optimizer_kwargs memory_saver splits self
    = identify_states collective_vars bounds PyNone fes_cutoff optimizer
        optimizer_kwargs memory_saver splits self.
Proof. split; reflexivity. Qed.

Lemma approximate_FES_outcome (collective_vars : list string) (bw_method logweights : pyobj)
    (self self' : Loader) (f : array2 -> list float) :
  approximate_FES collective_vars bw_method logweights self = (Ok f, self') ->
  exists K, KDE self' = Some K /\ kbt self' = kbt self /\ basins self' = basins self /\
            f = fes_closure (kbt self) K.
Proof.
  unfold approximate_FES, bind, get_self, lift, set_KDE, self_fes, get_KDE, ret.
  destruct (getitem_list (colvar self) collective_vars) as [sel|e]; [|discriminate].
  destruct (gaussian_kde_new (to_numpy sel) None) as [K|e]; [|discriminate].
  simpl. intros E. injection E as <- <-. exists K. simpl. auto.
Qed.

(** C5. After fitting, on a loader built by the constructor, the free-energy
    surface is [-kT * logpdf(x)] at every query point [x], where [logpdf] is
    the log-density of the fitted estimator and [kT] is the temperature given
    to the constructor, 2.5 when none is given. *)
Theorem fes_is_minus_kT_logpdf (colvar_arg : table_source)
    (descriptors_arg : option table_source) (kbt_arg : option float) (stride_arg : option Z)
    (dev_arg : option bool) (collective_vars : list string) (bw_method logweights : pyobj)
    (self self' : Loader) (f : array2 -> list float) :
  Loader_init colvar_arg descriptors_arg kbt_arg stride_arg dev_arg = Ok self ->
  approximate_FES collective_vars bw_method logweights self = (Ok f, self') ->
  exists K,
    KDE self' = Some K /\
    self_fes self' = (Ok f, self') /\
    kbt_default = 2.5%float /\
    forall X, f X = map (fun x => (- keyword kbt_default kbt_arg * logpdf K x)%float) X.
Proof.
  intros Hi Ha.
  destruct (Loader_init_fresh _ _ _ _ _ _ Hi) as (_ & _ & _ & Hk).
  destruct (approximate_FES_outcome _ _ _ _ _ _ Ha) as (K & HK & Hk' & _ & ->).
  exists K. split; [assumption|]. split.
  - unfold self_fes, bind, get_self, get_KDE, ret. rewrite HK, Hk'. reflexivity.
  - split; [reflexivity|]. intros X. rewrite fes_closure_map, Hk. reflexivity.
Qed.

(** C7. When the search of the minima finder locates no minimum,
    [identify_states] fails with [NoMinimaFoundError], raised by
    [local_minima], and assigns neither minima nor basins. *)
Theorem no_minima_raises (selected_cvs_arg : list string) (bounds : list (float * float))
    (logweights : pyobj) (fes_cutoff : option float) (optimizer : option string)
    (optimizer_kwargs : method_kwargs) (memory_saver : option bool) (splits : option Z)
    (self : Loader) (selected : DataFrame) (K : gaussian_kde) :
  retrieve_logweights logweights self = (Ok tt, self) ->
  getitem_list (colvar self) selected_cvs_arg = Ok selected ->
  gaussian_kde_new (to_numpy selected) None = Ok K ->
  minima_search (fes_closure (kbt self) K) bounds optimizer optimizer_kwargs = [] ->
  exists self',
    identify_states selected_cvs_arg bounds logweights fes_cutoff optimizer
      optimizer_kwargs memory_saver splits self = (Raise NoMinimaFoundError, self') /\
    basins self' = basins self /\ minima self' = minima self /\ KDE self' = Some K.
Proof.
  intros Hw Hs HK Hm.
  unfold identify_states, bind. rewrite Hw.
  unfold set_selected_cvs, approximate_FES, bind, get_self, lift, set_KDE, self_fes,
    get_KDE, ret, bind. simpl.
  rewrite Hs, HK. simpl.
  unfold local_minima. rewrite Hm.
  eexists. split; [reflexivity|]. simpl. auto.
Qed.

(** C8, as the code has it. Collecting the labelled data set while no basins
    are assigned, as on every loader fresh from the constructor, raises
    [KeyError] with the message below, returns no table and leaves the loader
    as it is. *)
Theorem collect_data_before_identify_states (only_selected_cvs : bool) (self : Loader) :
  basins self = None ->
  collect_data only_selected_cvs self
  = (Raise (KeyError "Basins not selected. Call identify_states() first."), self).
Proof.
  intros Hb. unfold collect_data, bind, get_self. rewrite Hb. reflexivity.
Qed.

(** C10. [identify_states] raises [TypeError] for log-weights that are
    neither [None] nor a string, a frame or an array, and [ValueError] when
    the array read from the log-weights is not one-dimensional; in both cases
    the loader is left as it was: no estimator, minima or basins are
    assigned. *)
Theorem identify_states_rejects_logweights (selected_cvs_arg : list string)
    (bounds : list (float * float)) (logweights : pyobj) (fes_cutoff : option float)
    (optimizer : option string) (optimizer_kwargs : method_kwargs)
    (memory_saver : option bool) (splits : option Z) (self : Loader) :
  (logweights <> PyNone -> accepted_logweights logweights = false ->
   identify_states selected_cvs_arg bounds logweights fes_cutoff optimizer
     optimizer_kwargs memory_saver splits self
   = (Raise (TypeError (py_str logweights ++
        ": Accepted types are 'pandas.Dataframe', 'str' or 'numpy.ndarray' ")), self)) /\
  (forall w, logweights_array (colvar self) logweights = Some w -> ndim w <> 1 ->
   identify_states selected_cvs_arg bounds logweights fes_cutoff optimizer
     optimizer_kwargs memory_saver splits self
   = (Raise (ValueError (py_str logweights ++ ": 1D array is required for logweights")),
      self)).
Proof.
  split.
  - intros Hn Ha. destruct logweights; simpl in Ha; try discriminate; [congruence|].
    reflexivity.
  - intros w Hw Hd. apply Nat.eqb_neq in Hd.
    unfold identify_states, bind, retrieve_logweights, bind, get_self, lift, ret, raise.
    destruct logweights; simpl in Hw; try discriminate.
    + destruct (getitem_values (colvar self) s) as [w'|e]; [|discriminate].
      injection Hw as ->. rewrite Hd. reflexivity.
    + injection Hw as <-. rewrite Hd. reflexivity.
    + injection Hw as <-. rewrite Hd. reflexivity.
Qed.

(** Log-weights that pass the check change nothing: the outcome and the
    loader after [identify_states] are those of the call without
    log-weights. *)
Lemma identify_states_ignores_logweights (selected_cvs_arg : list string)
    (bounds : list (float * float)) (logweights : pyobj) (fes_cutoff : option float)
    (optimizer : option string) (optimizer_kwargs : method_kwargs)
    (memory_saver : option bool) (splits : option Z) (self : Loader) :
  retrieve_logweights logweights self = (Ok tt, self) ->
  identify_states selected_cvs_arg bounds logweights fes_cutoff optimizer
    optimizer_kwargs memory_saver splits self
  = identify_states selected_cvs_arg bounds PyNone fes_cutoff optimizer
      optimizer_kwargs memory_saver splits self.
Proof.
  intros Hw. unfold identify_states, bind. rewrite Hw. reflexivity.
Qed.

End Pipeline.

(** ** The statements on the example data *)

Section OnExample.
Import Example.

Example constructor_on_example :
  Loader_init colvar7 (Some descriptors7) None None None = Ok fresh /\
  Loader_init colvar7 (Some descriptors7) None (Some 3%Z) None = Ok strided.
Proof. split; vm_compute; reflexivity. Qed.

Example identify_states_on_example :
  exists self,
    identify_states ["cv"%string] bounds1 PyNone None None 9 None None fresh = (Ok tt, self) /\
    minima self = Some wells /\ basins self = Some basins7 /\ KDE self = Some kde7.
Proof. eexists. split; [vm_compute; reflexivity|]. repeat split. Qed.

(** The frame at [0] is as far from one well as from the other and goes to
    the first; its free energy is exactly 5 above the well, which is not
    below the cutoff 5. *)
Example tie_and_boundary_on_example :
  map (euclid [0%float]) wells = [2%float; 2%float] /\
  assigned wells [0%float] = 0 /\
  (FES 2.5 kde7 [0%float] - FES 2.5 kde7 [(-2)%float])%float = 5%float /\
  (5 <? 5)%float = false.
Proof. vm_compute. repeat split. Qed.

(** With nine coordinates the order of the sum decides: on eight
    accumulators the squares of the differences to the first minimum add up
    to [10^16 + 8], one after the other to [10^16]; the squares to the
    second minimum add up to [10^16 + 4] either way, so that the point goes
    to the second minimum. *)
Example nine_coordinates_on_example :
  np_add_reduce (map (fun d => d * d)%float point9) = 10000000000000008%float /\
  fold_left PrimFloat.add (map (fun d => d * d)%float point9) 0%float
  = 10000000000000000%float /\
  (euclid point9 (nth 1 minima9 []) <? euclid point9 (nth 0 minima9 []))%float = true /\
  assigned minima9 point9 = 1.
Proof. vm_compute. repeat split. Qed.

(** A run of 300 entries, which the sum halves twice. *)
Example long_run_on_example :
  np_add_reduce (map (fun n => PrimFloat.of_uint63 (Uint63.of_Z (Z.of_nat n))) (seq 1 300))
  = 45150%float.
Proof. vm_compute. reflexivity. Qed.



Lemma memory_saver_same_result_witness :
  (1 <= 3 <= Z.of_nat (length (dataset kde7)))%Z /\
  _basin_selection wells 5 true 3 fitted = _basin_selection wells 5 false 3 fitted.
Proof.
  split.
  - simpl. lia.
  - apply (memory_saver_same_result fitted kde7 wells 5 3).
    + reflexivity.
    + simpl. lia.
Defined.

Lemma selection_monotone_in_cutoff_witness :
  (5 <=? 30)%float = true /\
  _basin_selection wells 5 false 50 fitted = (Ok basins7, fitted) /\
  exists df2,
    _basin_selection wells 30 false 50 fitted = (Ok df2, fitted) /\
    basin df2 = basin basins7 /\
    forall i, nth_error (selection basins7) i = Some true ->
              nth_error (selection df2) i = Some true.
Proof.
  split; [reflexivity|]. split; [vm_compute; reflexivity|].
  apply (selection_monotone_in_cutoff fitted fitted wells false 50 5 30 basins7).
  - reflexivity.
  - vm_compute. reflexivity.
Defined.

Lemma fes_is_minus_kT_logpdf_witness :
  exists K,
    KDE fitted = Some K /\
    self_fes fitted = (Ok (fes_closure 2.5 kde7), fitted) /\
    kbt_default = 2.5%float /\
    forall X, fes_closure 2.5 kde7 X
              = map (fun x => (- keyword kbt_default None * logpdf K x)%float) X.
Proof.
  apply (fes_is_minus_kT_logpdf (H := collaborators) colvar7 None None None None ["cv"%string] PyNone
           (PyNdarray logweights7)
           {| colvar := colvar7; descriptors := None; kbt := 2.5%float; stride := 1%Z;
              _DEV := false; traj := None; basins := None; selected_cvs := None;
              KDE := None; minima := None |}
           fitted (fes_closure 2.5 kde7)).
  - reflexivity.
  - reflexivity.
Defined.

Lemma no_minima_raises_witness :
  exists self',
    identify_states ["cv"%string] [(3, 12)%float] PyNone None None 9 None None fresh
    = (Raise NoMinimaFoundError, self') /\
    basins self' = basins fresh /\ minima self' = minima fresh /\ KDE self' = Some kde7.
Proof.
  apply (no_minima_raises (H := collaborators) ["cv"%string] [(3, 12)%float] PyNone None None 9 None None fresh
           {| index := index colvar7; columns := ["cv"%string]; values := dataset kde7 |}
           kde7).
  - reflexivity.
  - vm_compute. reflexivity.
  - reflexivity.
  - vm_compute. reflexivity.
Defined.

(** C8 as stated fails: on the loader fresh from the constructor the error
    of [collect_data] is a [KeyError], not the [PreconditionError] of the
    specification. *)
Lemma collect_data_error_is_not_PreconditionError :
  Loader_init colvar7 (Some descriptors7) None None None = Ok fresh /\
  fst (collect_data false fresh)
  = Raise (KeyError "Basins not selected. Call identify_states() first.") /\
  fst (collect_data false fresh) <> Raise PreconditionError.
Proof.
  split; [vm_compute; reflexivity|].
  split; [reflexivity|]. simpl. discriminate.
Qed.

Lemma collect_data_before_identify_states_witness :
  basins fresh = None /\
  collect_data true fresh
  = (Raise (KeyError "Basins not selected. Call identify_states() first."), fresh).
Proof.
  split; [reflexivity|].
  apply (collect_data_before_identify_states true fresh). reflexivity.
Defined.

Lemma stride_keeps_every_sth_row_witness :
  columns (colvar strided) = columns colvar7 /\
  (forall i, nth_error (index (colvar strided)) i = nth_error (index colvar7) (i * 3)) /\
  (forall i, nth_error (values (colvar strided)) i = nth_error (values colvar7) (i * 3)) /\
  (3 = 1 -> colvar strided = colvar7) /\
  (forall src loaded_d,
      Some descriptors7 = Some src -> load_dataframe src = Ok loaded_d ->
      exists d, descriptors strided = Some d /\
        (forall i, nth_error (index d) i = nth_error (index loaded_d) (i * 3)) /\
        (forall i, nth_error (values d) i
                   = option_map (without_time (columns loaded_d))
                                (nth_error (values loaded_d) (i * 3))) /\
        (3 = 1 -> has_column "time" loaded_d = false -> d = loaded_d)).
Proof.
  apply (stride_keeps_every_sth_row (H := collaborators) colvar7 (Some descriptors7) None (Some 3%Z) None
           colvar7 strided).
  - reflexivity.
  - reflexivity.
  - vm_compute. reflexivity.
Defined.

Lemma identify_states_rejects_logweights_witness :
  identify_states ["cv"%string] bounds1 (PyObject "list") None None 9 None None fresh
  = (Raise (TypeError
       "<object>: Accepted types are 'pandas.Dataframe', 'str' or 'numpy.ndarray' "), fresh) /\
  identify_states ["cv"%string] bounds1 (PyDataFrame descriptors7) None None 9 None None fresh
  = (Raise (ValueError "<object>: 1D array is required for logweights"), fresh).
Proof.
  destruct (identify_states_rejects_logweights (H := collaborators) ["cv"%string] bounds1 (PyObject "list")
              None None 9 None None fresh) as [T _].
  destruct (identify_states_rejects_logweights (H := collaborators) ["cv"%string] bounds1
              (PyDataFrame descriptors7) None None 9 None None fresh) as [_ V].
  split.
  - apply T; [discriminate|reflexivity].
  - apply (V (frame_values descriptors7)); [reflexivity|].
    vm_compute. lia.
Defined.

(** C1 on the example: log-weights that single out the last frame, given as
    an array or by the name of a column, leave the outcome and the loader of
    the call without log-weights. *)
Example logweights_change_nothing_on_example :
  identify_states ["cv"%string] bounds1 (PyNdarray logweights7) None None 9 None None fresh
  = identify_states ["cv"%string] bounds1 PyNone None None 9 None None fresh /\
  identify_states ["cv"%string] bounds1 (PyStr "opes.bias") None None 9 None None fresh
  = identify_states ["cv"%string] bounds1 PyNone None None 9 None None fresh.
Proof. split; vm_compute; reflexivity. Qed.

End OnExample.

(** * Further properties *)

(** ** More on slices and columns *)

Lemma length_every_from_0 (A : Type) (s : nat) (l : list A) :
  0 < s -> length (every_from s 0 l) = (length l + s - 1) / s.
Proof.
  intros Hs. set (r := every_from s 0 l).
  assert (H1 : length l <= length r * s).
  { assert (E : nth_error r (length r) = None) by now apply nth_error_None.
    unfold r in E at 1. rewrite nth_error_every_from in E by assumption.
    now apply nth_error_None in E. }
  assert (H2 : 0 < length r -> (length r - 1) * s < length l).
  { intros Hr.
    assert (E : nth_error r (length r - 1) <> None) by (apply nth_error_Some; lia).
    unfold r in E at 1. rewrite nth_error_every_from in E by assumption.
    now apply nth_error_Some in E. }
  apply (Nat.div_unique _ _ _ (length l + s - 1 - length r * s)).
  - destruct (length r) as [|n]; [lia|].
    specialize (H2 ltac:(lia)). simpl in H2. rewrite Nat.sub_0_r in H2. nia.
  - destruct (length r) as [|n]; [lia|].
    specialize (H2 ltac:(lia)). simpl in H2. rewrite Nat.sub_0_r in H2. nia.
Qed.

Lemma map_nth_seq_all (A : Type) (d : A) (l : list A) :
  map (fun p => nth p l d) (seq 0 (length l)) = l.
Proof.
  induction l as [|x l IH]; [reflexivity|].
  simpl. rewrite <- seq_shift, map_map. simpl. now rewrite IH.
Qed.

Lemma pick_labels_filter (name : string) (cols : list string) :
  pick_labels
    (filter (fun p => negb (String.eqb (nth p cols EmptyString) name)) (seq 0 (length cols)))
    cols
  = filter (fun c => negb (String.eqb c name)) cols.
Proof.
  unfold pick_labels.
  rewrite <- (filter_map_swap (fun c => negb (String.eqb c name))
                (fun p => nth p cols EmptyString)).
  now rewrite map_nth_seq_all.
Qed.

Lemma existsb_filter_out (name : string) (cols : list string) :
  existsb (String.eqb name) (filter (fun c => negb (String.eqb c name)) cols) = false.
Proof.
  induction cols as [|c cols IH]; [reflexivity|]. simpl.
  destruct (String.eqb c name) eqn:E; simpl; [assumption|].
  rewrite String.eqb_sym, E. exact IH.
Qed.

Lemma filter_out_absent (name : string) (cols : list string) :
  existsb (String.eqb name) cols = false ->
  filter (fun c => negb (String.eqb c name)) cols = cols.
Proof.
  induction cols as [|c cols IH]; [reflexivity|]. simpl.
  intros E. apply orb_false_elim in E as [E1 E2].
  rewrite String.eqb_sym, E1. simpl. now rewrite IH.
Qed.

Lemma iloc_rows_step_columns (s : Z) (df d : DataFrame) :
  iloc_rows_step s df = Ok d -> columns d = columns df.
Proof.
  unfold iloc_rows_step. intros E.
  destruct (slice_step s (index df)); simpl in E; [|discriminate].
  destruct (slice_step s (values df)); simpl in E; [|discriminate].
  now injection E as <-.
Qed.

(** ** The constructor: strides and the length check *)

Section Constructor.
Context `{Collaborators}.

#[local] Arguments String.eqb : simpl never.
#[local] Arguments existsb : simpl never.

(** A stride of zero makes the constructor fail with the [ValueError] of the
    slice, once the collective variables are loaded. *)
Theorem stride_zero_raises (colvar_arg : table_source)
    (descriptors_arg : option table_source) (kbt_arg : option float)
    (dev_arg : option bool) (loaded : DataFrame) :
  load_dataframe colvar_arg = Ok loaded ->
  Loader_init colvar_arg descriptors_arg kbt_arg (Some 0%Z) dev_arg
  = Raise (ValueError "slice step cannot be zero").
Proof.
  intros Hl. unfold Loader_init. rewrite Hl. reflexivity.
Qed.

(** A negative stride [-k] keeps the last row first and then every [k]-th
    row before it: row [i] of the stored table is row [N - 1 - i * k] of the
    loaded one, as long as [i * k < N]. *)
Theorem negative_stride_reverses (colvar_arg : table_source)
    (descriptors_arg : option table_source) (kbt_arg : option float) (k : positive)
    (dev_arg : option bool) (loaded : DataFrame) (self : Loader) :
  load_dataframe colvar_arg = Ok loaded ->
  Loader_init colvar_arg descriptors_arg kbt_arg (Some (Zneg k)) dev_arg = Ok self ->
  columns (colvar self) = columns loaded /\
  (forall i, nth_error (index (colvar self)) i
             = if i * Pos.to_nat k <? length (index loaded)
               then nth_error (index loaded) (length (index loaded) - 1 - i * Pos.to_nat k)
               else None) /\
  (forall i, nth_error (values (colvar self)) i
             = if i * Pos.to_nat k <? length (values loaded)
               then nth_error (values loaded) (length (values loaded) - 1 - i * Pos.to_nat k)
               else None).
Proof.
  intros Hl. unfold Loader_init. rewrite Hl. simpl.
  intros E.
  match type of E with rbind ?d _ = _ => destruct d as [descr|e] end;
    simpl in E; [|discriminate].
  injection E as <-. simpl.
  assert (Hk : 0 < Pos.to_nat k) by lia.
  split; [reflexivity|].
  split; intros i; rewrite nth_error_every_from by assumption; simpl;
    rewrite nth_error_rev;
    destruct (i * Pos.to_nat k <? _); try reflexivity; f_equal; lia.
Qed.

(** With a positive stride [s] a table of [N] rows keeps [ceil(N / s)] rows,
    and the length check of the constructor compares these numbers: the
    constructor accepts the two tables exactly when they keep as many rows,
    whatever their lengths before the stride, and raises [AssertionError]
    otherwise. *)
Theorem length_check_after_stride (colvar_arg src : table_source)
    (kbt_arg : option float) (stride_arg : option Z) (dev_arg : option bool)
    (loaded loaded_d : DataFrame) :
  let s := Z.to_nat (keyword stride_default stride_arg) in
  let kept n := (n + s - 1) / s in
  (0 < keyword stride_default stride_arg)%Z ->
  load_dataframe colvar_arg = Ok loaded ->
  load_dataframe src = Ok loaded_d ->
  (kept (df_len loaded) = kept (df_len loaded_d) ->
   exists self d,
     Loader_init colvar_arg (Some src) kbt_arg stride_arg dev_arg = Ok self /\
     descriptors self = Some d /\
     df_len (colvar self) = kept (df_len loaded) /\
     df_len d = df_len (colvar self)) /\
  (kept (df_len loaded) <> kept (df_len loaded_d) ->
   Loader_init colvar_arg (Some src) kbt_arg stride_arg dev_arg
   = Raise (AssertionError "mismatch between colvar and descriptor length.")).
Proof.
  intros s kept Hs Hl Hd.
  assert (Hpos : 0 < s) by (unfold s; lia).
  unfold Loader_init. rewrite Hl, Hd. simpl.
  rewrite !(iloc_rows_step_positive _ _ Hs). simpl. fold s.
  assert (Ed : forall df : DataFrame,
             df_len (if has_column "time" df then drop_column "time" df else df) = df_len df).
  { intros df. now destruct (has_column "time" df). }
  rewrite Ed.
  set (cv := {| index := every_from s 0 (index loaded); columns := columns loaded;
                values := every_from s 0 (values loaded) |}).
  set (d0 := {| index := every_from s 0 (index loaded_d); columns := columns loaded_d;
                values := every_from s 0 (values loaded_d) |}).
  assert (Ecv : df_len cv = kept (df_len loaded))
    by (unfold df_len, cv; simpl; now apply length_every_from_0).
  assert (Ed0 : df_len d0 = kept (df_len loaded_d))
    by (unfold df_len, d0; simpl; now apply length_every_from_0).
  rewrite Ecv, Ed0.
  split; intros E.
  - rewrite (proj2 (Nat.eqb_eq _ _) E). simpl.
    eexists. eexists. split; [reflexivity|]. simpl. split; [reflexivity|].
    split; [exact Ecv|]. now rewrite Ed, Ecv, Ed0.
  - apply Nat.eqb_neq in E. rewrite E. reflexivity.
Qed.

(** The descriptors that the constructor stores never have a column labelled
    [time]: their columns are the loaded ones other than [time], in order,
    and there are as many rows as in the stored collective variables. *)
Theorem descriptors_have_no_time_column (colvar_arg src : table_source)
    (kbt_arg : option float) (stride_arg : option Z) (dev_arg : option bool)
    (loaded_d : DataFrame) (self : Loader) :
  load_dataframe src = Ok loaded_d ->
  Loader_init colvar_arg (Some src) kbt_arg stride_arg dev_arg = Ok self ->
  exists d,
    descriptors self = Some d /\
    columns d = filter (fun c => negb (String.eqb c "time")) (columns loaded_d) /\
    has_column "time" d = false /\
    df_len d = df_len (colvar self).
Proof.
  intros Hd. unfold Loader_init. rewrite Hd.
  destruct (load_dataframe colvar_arg) as [loaded|e]; simpl; [|discriminate].
  destruct (iloc_rows_step _ loaded) as [cv|e]; simpl; [|discriminate].
  destruct (iloc_rows_step _ loaded_d) as [d0|e] eqn:E0; simpl; [|discriminate].
  apply iloc_rows_step_columns in E0.
  destruct (Nat.eqb (df_len cv) _) eqn:El; simpl; [|discriminate].
  intros E. injection E as <-. simpl.
  apply Nat.eqb_eq in El.
  eexists. split; [reflexivity|].
  unfold has_column in *.
  destruct (existsb (String.eqb "time") (columns d0)) eqn:Et.
  - unfold drop_column. simpl. rewrite pick_labels_filter, E0.
    split; [reflexivity|]. split; [apply existsb_filter_out|].
    now rewrite El.
  - rewrite <- E0, filter_out_absent by assumption.
    split; [reflexivity|]. split; [assumption|]. now rewrite El.
Qed.

End Constructor.

(** ** [identify_states], step by step *)

Section IdentifyStates.
Context `{Collaborators}.

Lemma retrieve_logweights_keeps (logweights : pyobj) (self : Loader) :
  snd (retrieve_logweights logweights self) = self.
Proof.
  unfold retrieve_logweights, bind, get_self, lift, ret, raise.
  destruct logweights as [|name|df|a|t]; simpl; try reflexivity.
  - destruct (getitem_values (colvar self) name) as [w|e]; simpl; [|reflexivity].
    destruct (Nat.eqb (ndim w) 1); reflexivity.
  - destruct (Nat.eqb (ndim a) 1); reflexivity.
Qed.

(** The check of the log-weights reads the collective variables only. *)
Lemma retrieve_logweights_colvar (logweights : pyobj) (self self' : Loader) :
  colvar self' = colvar self ->
  fst (retrieve_logweights logweights self') = fst (retrieve_logweights logweights self).
Proof.
  intros E. unfold retrieve_logweights, bind, get_self, lift, ret, raise.
  destruct logweights as [|name|df|a|t]; simpl; try reflexivity.
  - rewrite E. destruct (getitem_values (colvar self) name) as [w|e]; simpl; [|reflexivity].
    destruct (Nat.eqb (ndim w) 1); reflexivity.
  - destruct (Nat.eqb (ndim a) 1); reflexivity.
Qed.

(** The outcome of [identify_states] and the loader it leaves, stage by
    stage: each stage that raises leaves what the stages before it have
    assigned. *)
Lemma identify_states_stages (selected_cvs_arg : list string)
    (bounds : list (float * float)) (logweights : pyobj) (fes_cutoff : option float)
    (optimizer : option string) (optimizer_kwargs : method_kwargs)
    (memory_saver : option bool) (splits : option Z) (self : Loader) :
  identify_states selected_cvs_arg bounds logweights fes_cutoff optimizer
    optimizer_kwargs memory_saver splits self
  = match fst (retrieve_logweights logweights self) with
    | Raise e => (Raise e, self)
    | Ok _ =>
        let s1 := snd (set_selected_cvs selected_cvs_arg self) in
        match getitem_list (colvar self) selected_cvs_arg with
        | Raise e => (Raise e, s1)
        | Ok selected =>
            match gaussian_kde_new (to_numpy selected) None with
            | Raise e => (Raise e, s1)
            | Ok K =>
                let s2 := snd (set_KDE K s1) in
                match local_minima (fes_closure (kbt self) K) bounds optimizer
                        optimizer_kwargs with
                | Raise e => (Raise e, s2)
                | Ok found =>
                    let s3 := snd (set_minima found s2) in
                    match rbind (basin_differences (kbt self) (_DEV self) K found
                                   (keyword false memory_saver)
                                   (keyword splits_default splits))
                                (basin_frame (keyword fes_cutoff_default fes_cutoff)) with
                    | Raise e => (Raise e, s3)
                    | Ok b => (Ok tt, snd (set_basins b s3))
                    end
                end
            end
        end
    end.
Proof.
  unfold identify_states, bind.
  pose proof (retrieve_logweights_keeps logweights self) as Hk.
  destruct (retrieve_logweights logweights self) as [[[]|e] s0]; simpl in *; subst s0;
    [|reflexivity].
  unfold approximate_FES, bind, get_self, lift, set_KDE, self_fes, get_KDE, ret, bind.
  simpl.
  destruct (getitem_list (colvar self) selected_cvs_arg) as [selected|e]; [|reflexivity].
  destruct (gaussian_kde_new (to_numpy selected) None) as [K|e]; [|reflexivity].
  simpl.
  destruct (local_minima (fes_closure (kbt self) K) bounds optimizer optimizer_kwargs)
    as [found|e]; [|reflexivity].
  simpl.
  rewrite (_basin_selection_reads _ K) by reflexivity. simpl.
  destruct (rbind _ _) as [b|e]; reflexivity.
Qed.

Lemma basin_differences_lengths (kT : float) (dev : bool) (K : gaussian_kde)
    (minima_arg : array2) (memory_saver : bool) (splits : Z) (classes : list nat)
    (diff : list float) :
  basin_differences kT dev K minima_arg memory_saver splits = Ok (classes, diff) ->
  length classes = length (dataset K) /\ minima_arg <> [].
Proof.
  unfold basin_differences. intros E.
  destruct (pairwise_norms (dataset K) minima_arg) as [norms|e] eqn:En; simpl in E;
    [|discriminate].
  destruct (argmin_axis1 (length minima_arg) norms) as [cl|e] eqn:Ea; simpl in E;
    [|discriminate].
  destruct (rmap _ cl) as [ref_fes|e]; simpl in E; [|discriminate].
  match type of E with rbind ?p _ = _ => destruct p as [fes_pts|e] end; simpl in E;
    [|discriminate].
  destruct (broadcast_sub _ _ fes_pts ref_fes) as [d|e]; simpl in E; [|discriminate].
  injection E as <- <-.
  unfold argmin_axis1 in Ea.
  destruct minima_arg as [|m ms]; [discriminate|]. simpl in Ea.
  apply rmap_Forall2, Forall2_length in Ea.
  unfold pairwise_norms in En. apply rmap_Forall2, Forall2_length in En.
  split; [congruence|discriminate].
Qed.

(** Whatever its outcome, [identify_states] leaves the tables, the
    temperature, the stride, the debug flag and the trajectory of the loader
    as they were. *)
Theorem identify_states_keeps_the_tables (selected_cvs_arg : list string)
    (bounds : list (float * float)) (logweights : pyobj) (fes_cutoff : option float)
    (optimizer : option string) (optimizer_kwargs : method_kwargs)
    (memory_saver : option bool) (splits : option Z) (self : Loader) :
  let self' := snd (identify_states selected_cvs_arg bounds logweights fes_cutoff
                      optimizer optimizer_kwargs memory_saver splits self) in
  colvar self' = colvar self /\ descriptors self' = descriptors self /\
  kbt self' = kbt self /\ stride self' = stride self /\ _DEV self' = _DEV self /\
  traj self' = traj self.
Proof.
  rewrite identify_states_stages.
  destruct (fst (retrieve_logweights logweights self)); [|now simpl].
  destruct (getitem_list (colvar self) selected_cvs_arg) as [selected|e]; [|now simpl].
  destruct (gaussian_kde_new (to_numpy selected) None) as [K|e]; [|now simpl].
  destruct (local_minima _ bounds optimizer optimizer_kwargs) as [found|e]; [|now simpl].
  destruct (rbind _ _); now simpl.
Qed.

(** When [identify_states] returns, the loader holds the selected variables,
    an estimator, a non-empty sequence of minima and a table of basins with
    one row per training sample; the estimator was built without weights
    from the selected columns, the minima are those of its free-energy
    surface, and the table is the one [_basin_selection] gives for them. *)
Theorem identify_states_on_return (selected_cvs_arg : list string)
    (bounds : list (float * float)) (logweights : pyobj) (fes_cutoff : option float)
    (optimizer : option string) (optimizer_kwargs : method_kwargs)
    (memory_saver : option bool) (splits : option Z) (self self' : Loader) :
  identify_states selected_cvs_arg bounds logweights fes_cutoff optimizer
    optimizer_kwargs memory_saver splits self = (Ok tt, self') ->
  exists selected K found b,
    getitem_list (colvar self) selected_cvs_arg = Ok selected /\
    gaussian_kde_new (to_numpy selected) None = Ok K /\
    local_minima (fes_closure (kbt self) K) bounds optimizer optimizer_kwargs = Ok found /\
    found <> [] /\
    selected_cvs self' = Some selected_cvs_arg /\
    KDE self' = Some K /\ minima self' = Some found /\ basins self' = Some b /\
    length (basin b) = length (dataset K) /\
    length (selection b) = length (dataset K) /\
    _basin_selection found (keyword fes_cutoff_default fes_cutoff)
      (keyword false memory_saver) (keyword splits_default splits) self' = (Ok b, self').
Proof.
  rewrite identify_states_stages.
  destruct (fst (retrieve_logweights logweights self)); [|discriminate].
  destruct (getitem_list (colvar self) selected_cvs_arg) as [selected|e] eqn:Es;
    [|discriminate].
  destruct (gaussian_kde_new (to_numpy selected) None) as [K|e] eqn:EK; [|discriminate].
  destruct (local_minima _ bounds optimizer optimizer_kwargs) as [found|e] eqn:Em;
    [|discriminate].
  simpl.
  destruct (basin_differences _ _ K found _ _) as [[classes diff]|e] eqn:Eb;
    simpl; [|discriminate].
  destruct (basin_frame _ (classes, diff)) as [b|e] eqn:Ef; [|discriminate].
  intros E. injection E as <-.
  exists selected, K, found, b. simpl.
  destruct (basin_differences_lengths _ _ _ _ _ _ _ _ Eb) as [Hl Hne].
  unfold basin_frame, new_basins_frame in Ef. simpl in Ef.
  destruct (Nat.eqb _ (length classes)) eqn:El; [|discriminate].
  apply Nat.eqb_eq in El. injection Ef as <-. simpl.
  assert (Hfound : found <> []) by exact Hne.
  repeat split; try reflexivity; try assumption; try congruence.
  rewrite (_basin_selection_reads _ K) by reflexivity. simpl.
  rewrite Eb. simpl. unfold basin_frame, new_basins_frame. simpl.
  now rewrite (proj2 (Nat.eqb_eq _ _) El).
Qed.

(** Running [identify_states] again with the same arguments on the loader
    it has left gives the same outcome and leaves the same loader, whether
    the first run returned or raised. *)
Theorem identify_states_twice (selected_cvs_arg : list string)
    (bounds : list (float * float)) (logweights : pyobj) (fes_cutoff : option float)
    (optimizer : option string) (optimizer_kwargs : method_kwargs)
    (memory_saver : option bool) (splits : option Z) (self : Loader) :
  let once := identify_states selected_cvs_arg bounds logweights fes_cutoff
                optimizer optimizer_kwargs memory_saver splits self in
  identify_states selected_cvs_arg bounds logweights fes_cutoff optimizer
    optimizer_kwargs memory_saver splits (snd once) = once.
Proof.
  intros once. unfold once.
  rewrite (identify_states_stages _ _ _ _ _ _ _ _ self).
  destruct (fst (retrieve_logweights logweights self)) as [[]|e] eqn:Ew;
    [|simpl; rewrite identify_states_stages, Ew; reflexivity].
  destruct (getitem_list (colvar self) selected_cvs_arg) as [selected|e] eqn:Es;
    [|simpl; rewrite identify_states_stages;
      rewrite (retrieve_logweights_colvar _ self) by reflexivity;
      simpl; rewrite Ew, Es; reflexivity].
  destruct (gaussian_kde_new (to_numpy selected) None) as [K|e] eqn:EK;
    [|simpl; rewrite identify_states_stages;
      rewrite (retrieve_logweights_colvar _ self) by reflexivity;
      simpl; rewrite Ew, Es, EK; reflexivity].
  destruct (local_minima _ bounds optimizer optimizer_kwargs) as [found|e] eqn:Em;
    [|simpl; rewrite identify_states_stages;
      rewrite (retrieve_logweights_colvar _ self) by reflexivity;
      simpl; rewrite Ew, Es, EK, Em; reflexivity].
  destruct (rbind _ _) as [b|e] eqn:Eb;
    simpl; rewrite identify_states_stages;
    rewrite (retrieve_logweights_colvar _ self) by reflexivity;
    simpl; rewrite Ew, Es, EK, Em; simpl; rewrite Eb; reflexivity.
Qed.

(** A selected variable that is no column of the collective variables makes
    [identify_states] raise the [KeyError] of pandas on missing labels when
    it builds the free-energy surface: by then the selection is stored in
    the loader, and nothing else is assigned. *)
Theorem identify_states_unknown_variable (selected_cvs_arg : list string)
    (bounds : list (float * float)) (fes_cutoff : option float)
    (optimizer : option string) (optimizer_kwargs : method_kwargs)
    (memory_saver : option bool) (splits : option Z) (self : Loader) (name : string) :
  In name selected_cvs_arg ->
  has_column name (colvar self) = false ->
  exists self',
    identify_states selected_cvs_arg bounds PyNone fes_cutoff optimizer
      optimizer_kwargs memory_saver splits self
    = (Raise (KeyError (pd_not_in_index selected_cvs_arg (columns (colvar self)))), self') /\
    selected_cvs self' = Some selected_cvs_arg /\
    KDE self' = KDE self /\ minima self' = minima self /\ basins self' = basins self.
Proof.
  intros Hin Hc. rewrite identify_states_stages. simpl.
  rewrite (getitem_list_missing _ _ name Hin Hc).
  eexists. split; [reflexivity|]. simpl. repeat split.
Qed.

(** Log-weights given as a frame never pass the check: the values of a frame
    are two-dimensional, whatever its shape, so that [identify_states] raises
    [ValueError] and leaves the loader as it was. *)
Theorem identify_states_frame_logweights (selected_cvs_arg : list string)
    (bounds : list (float * float)) (df : DataFrame) (fes_cutoff : option float)
    (optimizer : option string) (optimizer_kwargs : method_kwargs)
    (memory_saver : option bool) (splits : option Z) (self : Loader) :
  identify_states selected_cvs_arg bounds (PyDataFrame df) fes_cutoff optimizer
    optimizer_kwargs memory_saver splits self
  = (Raise (ValueError (py_str (PyDataFrame df) ++ ": 1D array is required for logweights")),
     self).
Proof.
  assert (D : ndim (frame_values df) = 2) by reflexivity.
  assert (R : retrieve_logweights (PyDataFrame df) self
              = (Raise (ValueError (py_str (PyDataFrame df)
                                    ++ ": 1D array is required for logweights")), self)).
  { unfold retrieve_logweights, bind, get_self, ret, raise. now rewrite D. }
  rewrite identify_states_stages. now rewrite R.
Qed.

(** With a number of sections (50 when none is given) from 1 to the number
    of training samples of the estimator that it fits, [identify_states]
    with [memory_saver] ends exactly as without it. *)
Theorem identify_states_memory_saver (selected_cvs_arg : list string)
    (bounds : list (float * float)) (logweights : pyobj) (fes_cutoff : option float)
    (optimizer : option string) (optimizer_kwargs : method_kwargs)
    (splits : option Z) (self : Loader) :
  (forall selected K,
      getitem_list (colvar self) selected_cvs_arg = Ok selected ->
      gaussian_kde_new (to_numpy selected) None = Ok K ->
      (1 <= keyword splits_default splits <= Z.of_nat (length (dataset K)))%Z) ->
  identify_states selected_cvs_arg bounds logweights fes_cutoff optimizer
    optimizer_kwargs (Some true) splits self
  = identify_states selected_cvs_arg bounds logweights fes_cutoff optimizer
      optimizer_kwargs None splits self.
Proof.
  intros Hs. rewrite !identify_states_stages.
  destruct (fst (retrieve_logweights logweights self)); [|reflexivity].
  destruct (getitem_list (colvar self) selected_cvs_arg) as [selected|e] eqn:Es;
    [|reflexivity].
  destruct (gaussian_kde_new (to_numpy selected) None) as [K|e] eqn:EK; [|reflexivity].
  destruct (local_minima _ bounds optimizer optimizer_kwargs) as [found|e]; [|reflexivity].
  simpl. now rewrite (basin_differences_memory_saver _ _ _ _ _ (Hs selected K eq_refl EK)).
Qed.

End IdentifyStates.

(** ** Edges of [_basin_selection] and of [collect_data] *)

Lemma ltb_nan_r (d c : float) : PrimFloat.is_nan c = true -> (d <? c)%float = false.
Proof.
  unfold PrimFloat.is_nan. rewrite eqb_spec, ltb_spec. unfold SFeqb, SFltb.
  intros E.
  destruct (Prim2SF c) as [s|s| |s m e] eqn:Ec.
  - simpl in E. discriminate.
  - simpl in E. destruct s; discriminate.
  - destruct (Prim2SF d); reflexivity.
  - rewrite FloatOrder.SFcompare_refl in E by discriminate. discriminate.
Qed.

Section Edges.
Context `{Collaborators}.

(** With [memory_saver], a number of sections that is zero or negative makes
    [_basin_selection] raise the [ValueError] of [np.array_split], after the
    classes and the reference levels are computed; the loader is left as it
    was. *)
Theorem memory_saver_needs_positive_splits (self : Loader) (K : gaussian_kde)
    (minima_arg : array2) (fes_cutoff : float) (splits : Z) (D : nat) :
  KDE self = Some K ->
  minima_arg <> [] ->
  Forall (fun x => length x = D) (dataset K) ->
  Forall (fun m => length m = D) minima_arg ->
  (splits <= 0)%Z ->
  _basin_selection minima_arg fes_cutoff true splits self
  = (Raise (ValueError "number sections must be larger than 0."), self).
Proof.
  intros HK Hm Hp Hd Hs.
  rewrite (_basin_selection_reads self K) by assumption.
  unfold basin_differences.
  rewrite (pairwise_norms_euclid D) by assumption. simpl.
  rewrite argmin_axis1_assigned by assumption. simpl.
  rewrite (fes_closure_map (kbt self) K minima_arg), reference_levels by assumption.
  simpl. unfold array_split.
  destruct (splits <=? 0)%Z eqn:E; [reflexivity|lia].
Qed.

(** [N] samples of width [D] and [M] minima of another width [D'], neither
    width 1, cannot be subtracted: [_basin_selection] raises the [ValueError]
    of numpy on the shapes [(N,1,D)] and [(M,D')], and leaves the loader as
    it was. *)
Theorem dimension_mismatch_raises (self : Loader) (K : gaussian_kde)
    (x m : list float) (rest minima_rest : array2) (fes_cutoff : float)
    (memory_saver : bool) (splits : Z) :
  KDE self = Some K ->
  dataset K = x :: rest ->
  length x <> length m -> length x <> 1 -> length m <> 1 ->
  _basin_selection (m :: minima_rest) fes_cutoff memory_saver splits self
  = (Raise (ValueError
              ("operands could not be broadcast together with shapes "
               ++ "(" ++ str_nat (length (dataset K)) ++ ",1," ++ str_nat (length x) ++ ")"
               ++ " "
               ++ "(" ++ str_nat (length (m :: minima_rest)) ++ ","
               ++ str_nat (length m) ++ ")"
               ++ " ")), self).
Proof.
  intros HK Hx Hne Hx1 Hm1.
  rewrite (_basin_selection_reads self K) by assumption.
  unfold basin_differences, pairwise_norms. rewrite Hx.
  cbn [rmap rbind].
  assert (E : forall sa sb, broadcast_sub sa sb x m = Raise (broadcast_error sa sb)).
  { intros sa sb. unfold broadcast_sub. rewrite (proj2 (Nat.eqb_neq _ _) Hne).
    destruct x as [|a [|b x']], m as [|c [|d m']]; simpl in *; try reflexivity; lia. }
  rewrite E. cbn [rbind]. do 2 f_equal.
  apply broadcast_error_text.
Qed.

(** A cutoff that is a NaN selects no sample. *)
Theorem nan_cutoff_selects_nothing (self self' : Loader) (minima_arg : array2)
    (fes_cutoff : float) (memory_saver : bool) (splits : Z) (df : BasinsFrame) :
  PrimFloat.is_nan fes_cutoff = true ->
  _basin_selection minima_arg fes_cutoff memory_saver splits self = (Ok df, self') ->
  Forall (fun selected => selected = false) (selection df).
Proof.
  intros Hc E. destruct (KDE self) as [K|] eqn:HK.
  - rewrite (_basin_selection_reads self K) in E by assumption.
    destruct (basin_differences _ _ K minima_arg memory_saver splits) as [[classes diff]|e];
      simpl in E; [|discriminate].
    unfold basin_frame, new_basins_frame in E. simpl in E.
    destruct (Nat.eqb _ (length classes)); [|discriminate].
    injection E as <- _. simpl.
    rewrite Forall_forall. intros b Hb. apply in_map_iff in Hb as (d & <- & _).
    now apply ltb_nan_r.
  - rewrite _basin_selection_without_KDE in E by assumption. discriminate.
Qed.

(** After [identify_states] has returned on a loader that has descriptors,
    [collect_data] raises nothing of its own and leaves the loader as it is:
    it hands to [pandas.concat] the collective variables (all of them, or
    the selected columns), the table of basins and the descriptors, in this
    order. *)
Theorem collect_data_after_identify_states (selected_cvs_arg : list string)
    (bounds : list (float * float)) (logweights : pyobj) (fes_cutoff : option float)
    (optimizer : option string) (optimizer_kwargs : method_kwargs)
    (memory_saver : option bool) (splits : option Z) (self : Loader) (d : DataFrame) :
  let after := identify_states selected_cvs_arg bounds logweights fes_cutoff
                 optimizer optimizer_kwargs memory_saver splits self in
  fst after = Ok tt ->
  descriptors self = Some d ->
  exists b selected,
    basins (snd after) = Some b /\
    getitem_list (colvar self) selected_cvs_arg = Ok selected /\
    collect_data false (snd after)
    = (pd_concat_axis1 [inl (colvar self); inr b; inl d], snd after) /\
    collect_data true (snd after)
    = (pd_concat_axis1 [inl selected; inr b; inl d], snd after).
Proof.
  intros after. unfold after. rewrite identify_states_stages.
  destruct (fst (retrieve_logweights logweights self)); [|discriminate].
  destruct (getitem_list (colvar self) selected_cvs_arg) as [selected|e] eqn:Es;
    [|discriminate].
  destruct (gaussian_kde_new (to_numpy selected) None) as [K|e]; [|discriminate].
  destruct (local_minima _ bounds optimizer optimizer_kwargs) as [found|e]; [|discriminate].
  destruct (rbind _ _) as [b|e]; [|discriminate].
  intros _ Hd. exists b, selected. simpl.
  split; [reflexivity|]. split; [reflexivity|].
  unfold collect_data, bind, get_self, get_selected_cvs, get_descriptors, lift, ret.
  simpl. rewrite Hd, Es. split; reflexivity.
Qed.

(** After [identify_states] has returned on a loader that was given no
    descriptors, [collect_data] raises [AttributeError]: the loader has no
    attribute [descriptors]. *)
Theorem collect_data_without_descriptors (selected_cvs_arg : list string)
    (bounds : list (float * float)) (logweights : pyobj) (fes_cutoff : option float)
    (optimizer : option string) (optimizer_kwargs : method_kwargs)
    (memory_saver : option bool) (splits : option Z) (self : Loader)
    (only_selected_cvs : bool) :
  let after := identify_states selected_cvs_arg bounds logweights fes_cutoff
                 optimizer optimizer_kwargs memory_saver splits self in
  fst after = Ok tt ->
  descriptors self = None ->
  collect_data only_selected_cvs (snd after)
  = (Raise (AttributeError "'Loader' object has no attribute 'descriptors'"), snd after).
Proof.
  intros after. unfold after. rewrite identify_states_stages.
  destruct (fst (retrieve_logweights logweights self)); [|discriminate].
  destruct (getitem_list (colvar self) selected_cvs_arg) as [selected|e] eqn:Es;
    [|discriminate].
  destruct (gaussian_kde_new (to_numpy selected) None) as [K|e]; [|discriminate].
  destruct (local_minima _ bounds optimizer optimizer_kwargs) as [found|e]; [|discriminate].
  destruct (rbind _ _) as [b|e]; [|discriminate].
  intros _ Hd. simpl.
  unfold collect_data, bind, get_self, get_selected_cvs, get_descriptors, lift, ret.
  destruct only_selected_cvs; simpl; rewrite ?Es, Hd; reflexivity.
Qed.

End Edges.

(** ** Pairs and sorted sets *)

Lemma length_combinations2 (A : Type) (l : list A) :
  2 * length (combinations2 l) = length l * (length l - 1).
Proof.
  induction l as [|x l IH]; [reflexivity|].
  simpl. rewrite length_app, length_map, Nat.sub_0_r.
  destruct l as [|y l]; [reflexivity|]. simpl in *. nia.
Qed.

(** The pairs of [combinations2] are the pairs of an earlier and a later
    position of the list. *)
Lemma In_combinations2 (A : Type) (l : list A) (a b : A) :
  In (a, b) (combinations2 l) <->
  exists i j, i < j /\ nth_error l i = Some a /\ nth_error l j = Some b.
Proof.
  induction l as [|x l IH]; simpl.
  - split; [intros []|]. intros (i & j & _ & E & _). destruct i; discriminate.
  - rewrite in_app_iff, in_map_iff, IH. split.
    + intros [(y & E & Hy)|(i & j & Hij & Ei & Ej)].
      * injection E as <- <-. apply In_nth_error in Hy as (j & Ej).
        exists 0, (S j). repeat split; [lia|assumption].
      * exists (S i), (S j). repeat split; [lia|assumption|assumption].
    + intros (i & j & Hij & Ei & Ej).
      destruct j as [|j]; [lia|]. simpl in Ej.
      destruct i as [|i]; simpl in Ei.
      * injection Ei as <-. left. exists b. split; [reflexivity|].
        eapply nth_error_In; eassumption.
      * right. exists i, j. repeat split; [lia|assumption|assumption].
Qed.

Section SortedSets.
Variable A : Type.
Variable cmp : A -> A -> comparison.
Hypothesis cmp_eq : forall x y, cmp x y = Eq -> x = y.
Hypothesis cmp_gt : forall x y, cmp x y = Gt -> cmp y x = Lt.
Hypothesis cmp_trans : forall x y z, cmp x y = Lt -> cmp y z = Lt -> cmp x z = Lt.

Lemma In_insert_sorted (x y : A) (l : list A) :
  In y (insert_sorted cmp x l) <-> y = x \/ In y l.
Proof.
  induction l as [|z l IH]; simpl.
  - intuition.
  - destruct (cmp x z) eqn:E; simpl.
    + apply cmp_eq in E. subst. intuition.
    + intuition.
    + rewrite IH. intuition.
Qed.

Lemma In_sorted_set (y : A) (l : list A) : In y (sorted_set cmp l) <-> In y l.
Proof.
  induction l as [|x l IH]; simpl; [reflexivity|].
  rewrite In_insert_sorted, IH. intuition.
Qed.

Lemma insert_sorted_sorted (x : A) (l : list A) :
  StronglySorted (fun a b => cmp a b = Lt) l ->
  StronglySorted (fun a b => cmp a b = Lt) (insert_sorted cmp x l).
Proof.
  induction 1 as [|z l Hs IH Hz]; simpl.
  - repeat constructor.
  - destruct (cmp x z) eqn:E.
    + now constructor.
    + constructor; [now constructor|].
      constructor; [assumption|].
      rewrite Forall_forall in Hz |- *. intros w Hw.
      exact (cmp_trans _ _ _ E (Hz w Hw)).
    + constructor; [assumption|].
      rewrite Forall_forall in Hz |- *. intros w Hw.
      apply In_insert_sorted in Hw as [->|Hw]; [now apply cmp_gt|now apply Hz].
Qed.

Lemma sorted_set_sorted (l : list A) :
  StronglySorted (fun a b => cmp a b = Lt) (sorted_set cmp l).
Proof.
  induction l as [|x l IH]; simpl; [constructor|].
  now apply insert_sorted_sorted.
Qed.
End SortedSets.

Lemma pair_compare_eq (p q : nat * nat) : pair_compare p q = Eq -> p = q.
Proof.
  destruct p as [a b], q as [c d]. unfold pair_compare. simpl.
  destruct (Nat.compare_spec a c); try discriminate.
  destruct (Nat.compare_spec b d); try discriminate. congruence.
Qed.

Lemma pair_compare_gt (p q : nat * nat) : pair_compare p q = Gt -> pair_compare q p = Lt.
Proof.
  destruct p as [a b], q as [c d]. unfold pair_compare. simpl.
  destruct (Nat.compare_spec a c), (Nat.compare_spec c a); try lia; try discriminate;
    try reflexivity.
  destruct (Nat.compare_spec b d), (Nat.compare_spec d b); try lia; try discriminate;
    reflexivity.
Qed.

Lemma pair_compare_trans (p q r : nat * nat) :
  pair_compare p q = Lt -> pair_compare q r = Lt -> pair_compare p r = Lt.
Proof.
  destruct p as [a b], q as [c d], r as [e f]. unfold pair_compare. simpl.
  destruct (Nat.compare_spec a c), (Nat.compare_spec c e), (Nat.compare_spec a e);
    try lia; try discriminate; try reflexivity;
    destruct (Nat.compare_spec b d), (Nat.compare_spec d f), (Nat.compare_spec b f);
    try lia; try discriminate; reflexivity.
Qed.

Lemma nat_compare_gt (x y : nat) : Nat.compare x y = Gt -> Nat.compare y x = Lt.
Proof.
  intros E. apply Nat.compare_gt_iff in E. now apply Nat.compare_lt_iff.
Qed.

Lemma nat_compare_trans (x y z : nat) :
  Nat.compare x y = Lt -> Nat.compare y z = Lt -> Nat.compare x z = Lt.
Proof.
  rewrite !Nat.compare_lt_iff. lia.
Qed.

(** ** Trajectories and descriptors *)

Lemma length_range_index (n : nat) : length (range_index n) = n.
Proof. unfold range_index. now rewrite length_map, length_seq. Qed.

Lemma new_frame_Ok (rows : array2) (names : list string) (df : DataFrame) :
  new_frame rows names = Ok df ->
  df = {| index := range_index (length rows); columns := names; values := rows |} /\
  Forall (fun row => length row = length names) rows.
Proof.
  unfold new_frame. destruct (forallb _ rows) eqn:E; [|discriminate].
  intros G. injection G as <-. split; [reflexivity|].
  rewrite forallb_forall in E. rewrite Forall_forall. intros row Hr.
  now apply Nat.eqb_eq, E.
Qed.

Lemma new_frame_fits (rows : array2) (names : list string) :
  Forall (fun row => length row = length names) rows ->
  new_frame rows names
  = Ok {| index := range_index (length rows); columns := names; values := rows |}.
Proof.
  intros F. unfold new_frame.
  assert (E : forallb (fun row => Nat.eqb (length row) (length names)) rows = true).
  { apply forallb_forall. rewrite Forall_forall in F. intros row Hr.
    now apply Nat.eqb_eq, F. }
  now rewrite E.
Qed.

Section DescriptorProperties.
Context `{MdTraj}.

(** [load_trajectory] needs the key [trajectory]; it loads the file with the
    topology of the dictionary, if any, and with the stride of the loader,
    and stores the trajectory before it compares the lengths: it returns when
    the trajectory has as many frames as the collective variables have rows,
    and raises [AssertionError] otherwise, with the trajectory left in the
    loader. *)
Theorem load_trajectory_outcome (traj_dict : string -> option string) (self : Loader) :
  (traj_dict "trajectory"%string = None ->
   load_trajectory traj_dict self = (Raise (KeyError "trajectory"), self)) /\
  (forall file t,
     traj_dict "trajectory"%string = Some file ->
     md_load file (traj_dict "topology"%string) (stride self) = Ok t ->
     let self' := snd (load_trajectory traj_dict self) in
     traj self' = Some t /\
     colvar self' = colvar self /\ descriptors self' = descriptors self /\
     basins self' = basins self /\
     (traj_len t = df_len (colvar self) -> fst (load_trajectory traj_dict self) = Ok tt) /\
     (traj_len t <> df_len (colvar self) ->
      fst (load_trajectory traj_dict self)
      = Raise (AssertionError ("length traj (" ++ str_nat (traj_len t)
                               ++ ") != length colvar ("
                               ++ str_nat (df_len (colvar self)) ++ ")")))).
Proof.
  unfold load_trajectory, bind, lift, get_self, set_traj, ret, raise.
  split.
  - intros E. rewrite E. reflexivity.
  - intros file t E El. rewrite E, El. simpl.
    destruct (Nat.eqb (traj_len t) (df_len (colvar self))) eqn:En; simpl;
      repeat split; intros G; try reflexivity.
    + apply Nat.eqb_eq in En. contradiction.
    + apply Nat.eqb_neq in En. contradiction.
Qed.

(** Without a trajectory, [compute_descriptors] raises [KeyError] and leaves
    the loader as it is; this is the case of every loader fresh from the
    constructor. *)
Theorem compute_descriptors_without_trajectory (colvar_arg : table_source)
    (descriptors_arg : option table_source) (kbt_arg : option float)
    (stride_arg : option Z) (dev_arg : option bool) (self : Loader) :
  (traj self = None ->
   compute_descriptors self
   = (Raise (KeyError "Trajectory not loaded. Call self.load_trajectory() first."), self)) /\
  (Loader_init colvar_arg descriptors_arg kbt_arg stride_arg dev_arg = Ok self ->
   compute_descriptors self
   = (Raise (KeyError "Trajectory not loaded. Call self.load_trajectory() first."), self)).
Proof.
  assert (G : traj self = None ->
              compute_descriptors self
              = (Raise (KeyError "Trajectory not loaded. Call self.load_trajectory() first."),
                 self)).
  { intros E. unfold compute_descriptors, bind, get_self. rewrite E. reflexivity. }
  split; [exact G|].
  intros E. apply G. unfold Loader_init in E.
  destruct (load_dataframe colvar_arg); simpl in E; [|discriminate].
  destruct (iloc_rows_step _ _); simpl in E; [|discriminate].
  match type of E with rbind ?d _ = _ => destruct d end; simpl in E; [|discriminate].
  now injection E as <-.
Qed.

(** [_CA_DISTANCES] reads the loader and leaves it as it is. When it returns
    a table, the table has one column for every pair of two alpha carbons of
    the selection, [n (n - 1) / 2] columns for [n] atoms, labelled by the
    atoms of the pair in the order of [itertools.combinations]; its rows are
    the rows of distances, each with one entry per pair. *)
Theorem _CA_DISTANCES_columns (self self' : Loader) (t : trajectory) (df : DataFrame) :
  traj self = Some t ->
  _CA_DISTANCES self = (Ok df, self') ->
  let sel := top_select t "name CA" in
  self' = self /\
  compute_distances t (combinations2 sel) = Ok (values df) /\
  columns df = map (fun ij => pair_label "DIST. " t (fst ij) (snd ij)) (combinations2 sel) /\
  2 * length (columns df) = length sel * (length sel - 1) /\
  Forall (fun row => 2 * length row = length sel * (length sel - 1)) (values df) /\
  index df = range_index (length (values df)).
Proof.
  intros Ht. unfold _CA_DISTANCES, bind, get_traj_top, lift. rewrite Ht.
  destruct (compute_distances t _) as [dist|e] eqn:Ed; [|discriminate].
  destruct (new_frame dist _) as [d|e] eqn:En; [|discriminate].
  intros E. injection E as <- <-.
  apply new_frame_Ok in En as [-> F]. cbn [index columns values].
  rewrite length_map in F.
  split; [reflexivity|]. split; [reflexivity|]. split; [reflexivity|].
  split; [now rewrite length_map, length_combinations2|].
  split; [|reflexivity].
  rewrite Forall_forall in F |- *. intros row Hr.
  now rewrite (F row Hr), length_combinations2.
Qed.

(** The donors of [_HYDROGEN_BONDS] are in strictly increasing order, and
    they are the indices of the atoms of oxygen or nitrogen that a bond of
    the topology lists first, before a hydrogen. *)
Lemma hb_donors_spec (t : trajectory) :
  StronglySorted (fun x y => Nat.compare x y = Lt) (hb_donors t) /\
  forall x, In x (hb_donors t) <->
    exists b, In b (top_bonds t) /\ atom_index (fst b) = x /\
              (element_symbol (fst b) = "O"%string \/ element_symbol (fst b) = "N"%string) /\
              element_symbol (snd b) = "H"%string.
Proof.
  unfold hb_donors. split.
  - apply sorted_set_sorted.
    + intros x y. apply Nat.compare_eq.
    + apply nat_compare_gt.
    + apply nat_compare_trans.
  - intros x. rewrite In_sorted_set by (intros a b; apply Nat.compare_eq).
    rewrite in_map_iff. split.
    + intros (b & E & Hb). apply filter_In in Hb as [Hb C].
      apply andb_true_iff in C as [C1 C2]. apply orb_true_iff in C1.
      rewrite !String.eqb_eq in *. eauto.
    + intros (b & Hb & E & C1 & C2). exists b. split; [assumption|].
      apply filter_In. split; [assumption|].
      apply andb_true_iff. rewrite orb_true_iff, !String.eqb_eq. auto.
Qed.

(** The pairs of [_HYDROGEN_BONDS] are in strictly increasing lexicographic
    order, hence without repetition; each of them has its smaller index
    first; and they are exactly the pairs made of a donor and an acceptor
    that are two atoms of two residues. *)
Theorem hb_pairs_spec (t : trajectory) :
  let acceptors := top_select t "symbol O or symbol N" in
  StronglySorted (fun p q => pair_compare p q = Lt) (hb_pairs t) /\
  (forall a b, In (a, b) (hb_pairs t) -> a < b) /\
  (forall a b, In (a, b) (hb_pairs t) <->
     exists x y, In x (hb_donors t) /\ In y acceptors /\ x <> y /\
                 atom_residue t x <> atom_residue t y /\
                 a = Nat.min x y /\ b = Nat.max x y).
Proof.
  intros acceptors.
  assert (C : forall a b, In (a, b) (hb_pairs t) <->
     exists x y, In x (hb_donors t) /\ In y acceptors /\ x <> y /\
                 atom_residue t x <> atom_residue t y /\
                 a = Nat.min x y /\ b = Nat.max x y).
  { intros a b. unfold hb_pairs. fold acceptors.
    rewrite In_sorted_set by apply pair_compare_eq.
    rewrite in_flat_map. split.
    - intros (x & Hx & Hin). apply in_flat_map in Hin as (y & Hy & Hin).
      destruct (Nat.eqb x y) eqn:Exy; simpl in Hin; [destruct Hin|].
      destruct (String.eqb (atom_residue t x) (atom_residue t y)) eqn:Er; simpl in Hin;
        [destruct Hin|].
      destruct Hin as [E|[]]. injection E as <- <-.
      apply Nat.eqb_neq in Exy. apply String.eqb_neq in Er.
      exists x, y. auto 10.
    - intros (x & y & Hx & Hy & Exy & Er & -> & ->).
      exists x. split; [assumption|]. apply in_flat_map. exists y. split; [assumption|].
      apply Nat.eqb_neq in Exy. apply String.eqb_neq in Er.
      rewrite Exy, Er. now left. }
  split; [|split; [|exact C]].
  - apply sorted_set_sorted.
    + apply pair_compare_eq.
    + apply pair_compare_gt.
    + apply pair_compare_trans.
  - intros a b Hab. apply C in Hab as (x & y & _ & _ & Exy & _ & -> & ->). lia.
Qed.

(** The labels of the contacts and the labels of the distances never
    coincide. *)
Lemma hb_labels_apart (t : trajectory) (pairs pairs' : list (nat * nat)) :
  existsb (fun c => existsb (String.eqb c)
                      (map (fun xy => pair_label "HB_DIST " t (fst xy) (snd xy)) pairs'))
          (map (fun xy => pair_label "HB_CONTACT " t (fst xy) (snd xy)) pairs)
  = false.
Proof.
  destruct (existsb _ _) eqn:E; [|reflexivity].
  apply existsb_exists in E as (c & Hc & E).
  apply existsb_exists in E as (d & Hd & E).
  apply in_map_iff in Hc as (p & <- & _). apply in_map_iff in Hd as (q & <- & _).
  unfold pair_label in E. simpl in E. discriminate.
Qed.

Lemma join_rows (g : list float -> list float) (idx : list Z) (cols : list string)
    (rest pre : array2) :
  map (fun ir => snd ir
                 ++ row_or_nan {| index := idx; columns := cols; values := pre ++ rest |}
                      (fst ir))
      (combine (seq (length pre) (length rest)) (map g rest))
  = map (fun row => g row ++ row) rest.
Proof.
  revert pre. induction rest as [|r rest IH]; intros pre; [reflexivity|].
  simpl. f_equal.
  - unfold row_or_nan. simpl. now rewrite nth_error_app2, Nat.sub_diag by lia.
  - specialize (IH (pre ++ [r])).
    rewrite <- app_assoc, length_app in IH. simpl in IH.
    now rewrite Nat.add_1_r in IH.
Qed.

(** When the distances of the pairs are computed, one entry per pair in each
    row, [_HYDROGEN_BONDS] returns a table and leaves the loader as it is.
    The table has two columns per pair: the contacts first, then the
    distances, each block in the order of the pairs; a row holds the contacts
    of the distances of its frame, computed in [float32] as the distances
    are, followed by these distances. *)
Theorem _HYDROGEN_BONDS_table (self : Loader) (t : trajectory) (dist : array2) :
  traj self = Some t ->
  compute_distances t (hb_pairs t) = Ok dist ->
  Forall (fun row => length row = length (hb_pairs t)) dist ->
  _HYDROGEN_BONDS self
  = (Ok {| index := range_index (length dist);
           columns :=
             map (fun xy => pair_label "HB_CONTACT " t (fst xy) (snd xy)) (hb_pairs t)
             ++ map (fun xy => pair_label "HB_DIST " t (fst xy) (snd xy)) (hb_pairs t);
           values := map (fun row => map hb_contact row ++ row) dist |}, self).
Proof.
  intros Ht Ed F.
  unfold _HYDROGEN_BONDS, bind, get_traj_top, lift. rewrite Ht, Ed.
  rewrite new_frame_fits by now rewrite length_map.
  assert (Ec : contact_function_of float32 dist r0_hydrogen_bond 0 6 12
               = map (map hb_contact) dist) by reflexivity.
  rewrite Ec.
  rewrite new_frame_fits.
  2:{ rewrite Forall_forall in F |- *. intros row Hr.
      apply in_map_iff in Hr as (r & <- & Hr). rewrite !length_map. now apply F. }
  unfold df_join. cbn [columns values index].
  rewrite hb_labels_apart, !length_map.
  pose proof (join_rows (map hb_contact) (range_index (length dist))
                (map (fun xy => pair_label "HB_DIST " t (fst xy) (snd xy)) (hb_pairs t))
                dist []) as J.
  simpl in J. now rewrite J.
Qed.

(** Where the power of [numpy] returns 1 for the base 1, the contact of a
    distance [v] with [(v - d0) / r0 = 1], such as [v = r0] for [d0 = 0], is
    a NaN: the function divides zero by zero there. *)
Theorem contact_function_at_r0 (x : array2) (r0 d0 n m : float) (i j : nat)
    (row : list float) (v : float) :
  np_power 1 n = 1%float ->
  np_power 1 m = 1%float ->
  nth_error x i = Some row ->
  nth_error row j = Some v ->
  ((v - d0) / r0)%float = 1%float ->
  exists contacts,
    nth_error (contact_function x r0 d0 n m) i = Some contacts /\
    nth_error contacts j = Some PrimFloat.nan.
Proof.
  intros Pn Pm Hr Hv E. unfold contact_function, contact_function_of.
  rewrite nth_error_map, Hr. simpl. eexists. split; [reflexivity|].
  rewrite nth_error_map, Hv. unfold contact_entry. simpl. rewrite E, Pn, Pm. reflexivity.
Qed.

Lemma prefix_append (a b : string) : String.prefix a (a ++ b) = true.
Proof.
  induction a as [|c a IH]; simpl.
  - now destruct b.
  - destruct (ascii_dec c c); [assumption|congruence].
Qed.

(** What one run of the loop of [_get_dihedrals] appends: one label and one
    column per dihedral, three with [sincos]; every label starts with the
    word of the kind, and every column has one entry per frame. *)
Lemma dihedral_loop_appends (t : trajectory) (kind : string) (sincos : bool)
    (angles : array2) (idx_list : list (list nat)) :
  forall (i : nat) (names : list string) (vals : list (list float))
         (names' : list string) (vals' : list (list float)),
  dihedral_loop t kind sincos angles idx_list i names vals = Ok (names', vals') ->
  exists new_names new_vals,
    names' = names ++ new_names /\ vals' = vals ++ new_vals /\
    length new_names = (if sincos then 3 else 1) * length idx_list /\
    length new_vals = (if sincos then 3 else 1) * length idx_list /\
    Forall (fun name => String.prefix (dihedral_tag kind) name = true) new_names /\
    Forall (fun col => length col = length angles) new_vals.
Proof.
  induction idx_list as [|idx rest IH]; intros i names vals names' vals' E; simpl in E.
  - injection E as <- <-. exists [], []. rewrite !app_nil_r, Nat.mul_0_r.
    repeat split; constructor.
  - destruct (getitem idx 0) as [a0|e]; simpl in E; [|discriminate].
    destruct (rmap (fun row => getitem row i) angles) as [col|e] eqn:Ec; simpl in E;
      [|discriminate].
    apply rmap_Forall2, Forall2_length in Ec.
    fold (dihedral_tag kind) in E.
    destruct sincos.
    + apply IH in E as (nn & nv & -> & -> & Ln & Lv & Fn & Fv).
      eexists (_ :: _ :: _ :: nn), (_ :: _ :: _ :: nv).
      rewrite <- !app_assoc. simpl.
      split; [reflexivity|]. split; [reflexivity|].
      split; [lia|]. split; [lia|]. split.
      * repeat constructor; try assumption; apply prefix_append.
      * repeat constructor; try assumption; now rewrite ?length_map.
    + apply IH in E as (nn & nv & -> & -> & Ln & Lv & Fn & Fv).
      eexists (_ :: nn), (_ :: nv).
      rewrite <- !app_assoc. simpl.
      split; [reflexivity|]. split; [reflexivity|].
      split; [lia|]. split; [lia|]. split.
      * constructor; [apply prefix_append|assumption].
      * constructor; [now symmetry|assumption].
Qed.

(** [_get_dihedrals] on a loader with a trajectory: a pure computation that
    leaves the loader as it is. *)
Lemma _get_dihedrals_reads (self : Loader) (t : trajectory) (kind : string) (sincos : bool) :
  traj self = Some t ->
  _get_dihedrals kind sincos self
  = (if supported_kind kind
     then rbind (dihedrals_of_kind t kind) (fun d =>
            dihedral_loop t kind sincos (snd d) (fst d) 0 [] [])
     else Raise (KeyError "supported values: phi,psi,chi1,chi2"), self).
Proof.
  intros Ht. unfold _get_dihedrals, bind, get_traj_top. rewrite Ht.
  unfold supported_kind, dihedrals_of_kind, lift, raise.
  destruct (String.eqb kind "phi");
    [simpl; now destruct (compute_phi t) as [[? ?]|?]|].
  destruct (String.eqb kind "psi");
    [simpl; now destruct (compute_psi t) as [[? ?]|?]|].
  destruct (String.eqb kind "chi1");
    [simpl; now destruct (compute_chi1 t) as [[? ?]|?]|].
  destruct (String.eqb kind "chi2");
    [simpl; now destruct (compute_chi2 t) as [[? ?]|?]|].
  reflexivity.
Qed.

(** [_get_dihedrals] knows four kinds and raises [KeyError] for any other,
    with the trajectory loaded; the loader is left as it is. *)
Theorem _get_dihedrals_unknown_kind (self : Loader) (t : trajectory) (kind : string)
    (sincos : bool) :
  traj self = Some t ->
  supported_kind kind = false ->
  _get_dihedrals kind sincos self
  = (Raise (KeyError "supported values: phi,psi,chi1,chi2"), self).
Proof.
  intros Ht Hk. now rewrite (_get_dihedrals_reads self t), Hk.
Qed.

(** When [_get_dihedrals] returns, the kind is one of the four, the loader is
    as it was, and there are as many labels as columns: one per dihedral of
    the kind, three with [sincos] (the angle, its cosine, its sine). Every
    label starts with [SIDECHAIN] for a kind that contains [chi] and with
    [BACKBONE] otherwise, and every column has one entry per frame. *)
Theorem _get_dihedrals_shape (self self' : Loader) (t : trajectory) (kind : string)
    (sincos : bool) (names : list string) (vals : list (list float)) :
  traj self = Some t ->
  _get_dihedrals kind sincos self = (Ok (names, vals), self') ->
  self' = self /\ supported_kind kind = true /\
  exists idx_list angles,
    dihedrals_of_kind t kind = Ok (idx_list, angles) /\
    length names = (if sincos then 3 else 1) * length idx_list /\
    length vals = (if sincos then 3 else 1) * length idx_list /\
    Forall (fun name => String.prefix (dihedral_tag kind) name = true) names /\
    Forall (fun col => length col = length angles) vals.
Proof.
  intros Ht. rewrite (_get_dihedrals_reads self t) by assumption.
  destruct (supported_kind kind); [|discriminate].
  destruct (dihedrals_of_kind t kind) as [[idx_list angles]|e]; simpl; [|discriminate].
  destruct (dihedral_loop _ _ _ _ _ _ _ _) as [[n v]|e] eqn:El; [|discriminate].
  intros E. injection E as <- <- <-.
  apply dihedral_loop_appends in El as (nn & nv & -> & -> & Ln & Lv & Fn & Fv).
  split; [reflexivity|]. split; [reflexivity|].
  exists idx_list, angles. simpl. auto.
Qed.

Lemma frame_of_columns_Ok (cols : list (list float)) (names : list string)
    (df : DataFrame) :
  frame_of_columns cols names = Ok df ->
  columns df = names /\ Forall (fun row => length row = length names) (values df).
Proof.
  unfold frame_of_columns. destruct cols as [|c cols].
  - destruct (Nat.eqb (length names) 1); [|discriminate].
    intros E. injection E as <-. split; [reflexivity|constructor].
  - destruct (forallb _ (c :: cols)); [|discriminate].
    intros E. apply new_frame_Ok in E as [-> F]. split; [reflexivity|exact F].
Qed.

(** When [_ANGLES] returns, the loader is as it was and the four
    computations of dihedral angles have succeeded; the table has three
    columns per dihedral: those of [phi], then [psi], [chi1] and [chi2], the
    first two blocks labelled [BACKBONE] and the last two [SIDECHAIN]; and
    every row has one entry per column. *)
Theorem _ANGLES_columns (self self' : Loader) (t : trajectory) (df : DataFrame) :
  traj self = Some t ->
  _ANGLES self = (Ok df, self') ->
  self' = self /\
  exists i1 a1 i2 a2 i3 a3 i4 a4 n1 n2 n3 n4,
    compute_phi t = Ok (i1, a1) /\ compute_psi t = Ok (i2, a2) /\
    compute_chi1 t = Ok (i3, a3) /\ compute_chi2 t = Ok (i4, a4) /\
    columns df = n1 ++ n2 ++ n3 ++ n4 /\
    length n1 = 3 * length i1 /\ length n2 = 3 * length i2 /\
    length n3 = 3 * length i3 /\ length n4 = 3 * length i4 /\
    Forall (fun name => String.prefix "BACKBONE " name = true) (n1 ++ n2) /\
    Forall (fun name => String.prefix "SIDECHAIN " name = true) (n3 ++ n4) /\
    Forall (fun row => length row = length (columns df)) (values df).
Proof.
  intros Ht. unfold _ANGLES, angles_loop, bind.
  rewrite (_get_dihedrals_reads self t "phi" true Ht).
  change (supported_kind "phi") with true.
  change (dihedrals_of_kind t "phi") with (compute_phi t).
  destruct (compute_phi t) as [[i1 a1]|e]; simpl; [|discriminate].
  destruct (dihedral_loop t "phi" _ _ _ _ _ _) as [[n1 v1]|e] eqn:E1; [|discriminate].
  rewrite (_get_dihedrals_reads self t "psi" true Ht).
  change (supported_kind "psi") with true.
  change (dihedrals_of_kind t "psi") with (compute_psi t).
  destruct (compute_psi t) as [[i2 a2]|e]; simpl; [|discriminate].
  destruct (dihedral_loop t "psi" _ _ _ _ _ _) as [[n2 v2]|e] eqn:E2; [|discriminate].
  rewrite (_get_dihedrals_reads self t "chi1" true Ht).
  change (supported_kind "chi1") with true.
  change (dihedrals_of_kind t "chi1") with (compute_chi1 t).
  destruct (compute_chi1 t) as [[i3 a3]|e]; simpl; [|discriminate].
  destruct (dihedral_loop t "chi1" _ _ _ _ _ _) as [[n3 v3]|e] eqn:E3; [|discriminate].
  rewrite (_get_dihedrals_reads self t "chi2" true Ht).
  change (supported_kind "chi2") with true.
  change (dihedrals_of_kind t "chi2") with (compute_chi2 t).
  destruct (compute_chi2 t) as [[i4 a4]|e]; simpl; [|discriminate].
  destruct (dihedral_loop t "chi2" _ _ _ _ _ _) as [[n4 v4]|e] eqn:E4; [|discriminate].
  unfold ret, lift. simpl.
  destruct (frame_of_columns _ _) as [d|e] eqn:En; [|discriminate].
  intros E. injection E as <- <-.
  apply frame_of_columns_Ok in En as [Ec F]. rewrite Ec in *.
  apply dihedral_loop_appends in E1 as (m1 & w1 & -> & -> & L1 & _ & F1 & _).
  apply dihedral_loop_appends in E2 as (m2 & w2 & -> & -> & L2 & _ & F2 & _).
  apply dihedral_loop_appends in E3 as (m3 & w3 & -> & -> & L3 & _ & F3 & _).
  apply dihedral_loop_appends in E4 as (m4 & w4 & -> & -> & L4 & _ & F4 & _).
  simpl in *.
  split; [reflexivity|].
  exists i1, a1, i2, a2, i3, a3, i4, a4, m1, m2, m3, m4.
  repeat (split; [first [reflexivity | lia]|]).
  split; [now rewrite <- !app_assoc|].
  repeat (split; [lia|]).
  split; [apply Forall_app; split; assumption|].
  split; [apply Forall_app; split; assumption|].
  exact F.
Qed.

Lemma df_len_concat3 (a b c : DataFrame) :
  df_len (concat_range_frames [a; b; c])
  = Nat.max (df_len a) (Nat.max (df_len b) (df_len c)).
Proof.
  unfold concat_range_frames, df_len at 1. cbn [index map fold_right].
  now rewrite length_range_index, Nat.max_0_r.
Qed.

(** With a trajectory and the three tables computed, [compute_descriptors]
    stores their columns side by side, with the rows of the longest table,
    and only then compares the number of rows with the collective variables:
    it returns when they agree and raises [AssertionError] otherwise, and in
    both cases the new descriptors stay in the loader. *)
Theorem compute_descriptors_outcome (self : Loader) (t : trajectory)
    (ca hb ang : DataFrame) :
  traj self = Some t ->
  _CA_DISTANCES self = (Ok ca, self) ->
  _HYDROGEN_BONDS self = (Ok hb, self) ->
  _ANGLES self = (Ok ang, self) ->
  let d := concat_range_frames [ca; hb; ang] in
  compute_descriptors self
  = (if Nat.eqb (df_len (colvar self)) (df_len d)
     then Ok tt
     else Raise (AssertionError "mismatch between colvar and descriptor length."),
     snd (set_descriptors d self)) /\
  columns d = columns ca ++ columns hb ++ columns ang /\
  df_len d = Nat.max (df_len ca) (Nat.max (df_len hb) (df_len ang)).
Proof.
  intros Ht Ec Eh Ea d.
  split; [|split].
  - unfold compute_descriptors, bind, get_self. rewrite Ht, Ec, Eh, Ea.
    fold d. unfold set_descriptors, ret, raise. simpl.
    now destruct (Nat.eqb _ _).
  - unfold d, concat_range_frames. cbn [columns map concat]. now rewrite app_nil_r.
  - apply df_len_concat3.
Qed.

End DescriptorProperties.

(** ** The further properties on the example data *)

Section FurtherOnExample.
Import Example ExampleTraj.

Lemma stride_zero_raises_witness :
  Loader_init colvar7 (Some descriptors7) None (Some 0%Z) None
  = Raise (ValueError "slice step cannot be zero").
Proof.
  apply (stride_zero_raises (H := collaborators) colvar7 (Some descriptors7) None None
           colvar7).
  reflexivity.
Defined.

Lemma negative_stride_reverses_witness :
  exists self,
    Loader_init colvar7 None None (Some (-3)%Z) None = Ok self /\
    index (colvar self) = [6; 3; 0]%Z /\
    forall i, nth_error (index (colvar self)) i
              = if i * 3 <? 7 then nth_error (index colvar7) (7 - 1 - i * 3) else None.
Proof.
  eexists. split; [vm_compute; reflexivity|]. split; [reflexivity|].
  apply (negative_stride_reverses (H := collaborators) colvar7 None None 3 None colvar7).
  - reflexivity.
  - vm_compute. reflexivity.
Defined.

Lemma length_check_after_stride_witness :
  df_len colvar7 = 7 /\ df_len descriptors8 = 8 /\
  exists self d,
    Loader_init colvar7 (Some descriptors8) None (Some 3%Z) None = Ok self /\
    descriptors self = Some d /\
    df_len (colvar self) = 3 /\
    df_len d = df_len (colvar self).
Proof.
  split; [reflexivity|]. split; [reflexivity|].
  apply (length_check_after_stride (H := collaborators) colvar7 descriptors8 None
           (Some 3%Z) None colvar7 descriptors8); reflexivity.
Defined.

Lemma descriptors_have_no_time_column_witness :
  exists d,
    descriptors fresh = Some d /\
    columns d = filter (fun c => negb (String.eqb c "time")) (columns descriptors7) /\
    has_column "time" d = false /\
    df_len d = df_len (colvar fresh).
Proof.
  apply (descriptors_have_no_time_column (H := collaborators) colvar7 descriptors7 None
           None None descriptors7 fresh).
  - reflexivity.
  - vm_compute. reflexivity.
Defined.

Lemma identify_states_on_return_witness :
  exists self',
    identify_states ["cv"%string] bounds1 PyNone None None 9 None None fresh
    = (Ok tt, self') /\
    minima self' = Some wells /\ basins self' = Some basins7 /\
    exists selected K found b,
      getitem_list (colvar fresh) ["cv"%string] = Ok selected /\
      gaussian_kde_new (to_numpy selected) None = Ok K /\
      local_minima (fes_closure (kbt fresh) K) bounds1 None 9 = Ok found /\
      found <> [] /\
      selected_cvs self' = Some ["cv"%string] /\
      KDE self' = Some K /\ minima self' = Some found /\ basins self' = Some b /\
      length (basin b) = length (dataset K) /\
      length (selection b) = length (dataset K) /\
      _basin_selection found (keyword fes_cutoff_default None)
        (keyword false None) (keyword splits_default None) self' = (Ok b, self').
Proof.
  eexists. split; [vm_compute; reflexivity|].
  split; [reflexivity|]. split; [reflexivity|].
  apply (identify_states_on_return (H := collaborators) ["cv"%string] bounds1 PyNone
           None None 9 None None fresh).
  vm_compute. reflexivity.
Defined.

Lemma identify_states_unknown_variable_witness :
  exists self',
    identify_states ["cv"; "phi"]%string bounds1 PyNone None None 9 None None fresh
    = (Raise (KeyError "['phi'] not in index"), self') /\
    selected_cvs self' = Some ["cv"; "phi"]%string /\
    KDE self' = KDE fresh /\ minima self' = minima fresh /\ basins self' = basins fresh.
Proof.
  apply (identify_states_unknown_variable (H := collaborators) ["cv"; "phi"]%string
           bounds1 None None 9 None None fresh "phi").
  - right. left. reflexivity.
  - reflexivity.
Defined.

Lemma identify_states_memory_saver_witness :
  identify_states ["cv"%string] bounds1 PyNone None None 9 (Some true) (Some 3%Z) fresh
  = identify_states ["cv"%string] bounds1 PyNone None None 9 None (Some 3%Z) fresh.
Proof.
  apply (identify_states_memory_saver (H := collaborators) ["cv"%string] bounds1 PyNone
           None None 9 (Some 3%Z) fresh).
  intros selected K Es EK.
  vm_compute in Es. injection Es as <-.
  vm_compute in EK. injection EK as <-.
  simpl. lia.
Defined.

Lemma memory_saver_needs_positive_splits_witness :
  _basin_selection wells 5 true 0 fitted
  = (Raise (ValueError "number sections must be larger than 0."), fitted).
Proof.
  apply (memory_saver_needs_positive_splits fitted kde7 wells 5 0 1).
  - reflexivity.
  - discriminate.
  - repeat constructor.
  - repeat constructor.
  - reflexivity.
Defined.

Lemma dimension_mismatch_raises_witness :
  _basin_selection [[0; 0]%float] 5 false 50 fitted3d
  = (Raise (ValueError
              "operands could not be broadcast together with shapes (2,1,3) (1,2) "),
     fitted3d).
Proof.
  apply (dimension_mismatch_raises fitted3d kde3d [0; 0; 0]%float [0; 0]%float
           [[1; 1; 1]%float] [] 5 false 50).
  - reflexivity.
  - reflexivity.
  - simpl. lia.
  - simpl. lia.
  - simpl. lia.
Defined.

Lemma nan_cutoff_selects_nothing_witness :
  exists df,
    _basin_selection wells PrimFloat.nan false 50 fitted = (Ok df, fitted) /\
    basin df = [0; 0; 0; 0; 1; 1; 1] /\
    Forall (fun selected => selected = false) (selection df).
Proof.
  eexists. split; [vm_compute; reflexivity|]. split; [reflexivity|].
  apply (nan_cutoff_selects_nothing fitted fitted wells PrimFloat.nan false 50).
  - reflexivity.
  - vm_compute. reflexivity.
Defined.

Lemma collect_data_after_identify_states_witness :
  let after := identify_states ["cv"%string] bounds1 PyNone None None 9 None None fresh in
  exists b selected,
    basins (snd after) = Some b /\
    getitem_list (colvar fresh) ["cv"%string] = Ok selected /\
    collect_data false (snd after)
    = (pd_concat_axis1 [inl (colvar fresh); inr b; inl descriptors7_kept], snd after) /\
    collect_data true (snd after)
    = (pd_concat_axis1 [inl selected; inr b; inl descriptors7_kept], snd after).
Proof.
  apply (collect_data_after_identify_states (H := collaborators) ["cv"%string] bounds1
           PyNone None None 9 None None fresh descriptors7_kept).
  - vm_compute. reflexivity.
  - reflexivity.
Defined.

Lemma collect_data_without_descriptors_witness :
  let after := identify_states ["cv"%string] bounds1 PyNone None None 9 None None bare in
  collect_data false (snd after)
  = (Raise (AttributeError "'Loader' object has no attribute 'descriptors'"), snd after).
Proof.
  apply (collect_data_without_descriptors (H := collaborators) ["cv"%string] bounds1
           PyNone None None 9 None None bare false).
  - vm_compute. reflexivity.
  - reflexivity.
Defined.

Lemma load_trajectory_outcome_witness :
  load_trajectory (fun _ => None) bare = (Raise (KeyError "trajectory"), bare) /\
  load_trajectory traj_dict bare = (Ok tt, with_traj) /\
  traj (snd (load_trajectory traj_dict (snd (set_selected_cvs [] strided)))) = Some tt /\
  fst (load_trajectory traj_dict (snd (set_selected_cvs [] strided)))
  = Raise (AssertionError "length traj (7) != length colvar (3)").
Proof.
  destruct (load_trajectory_outcome (H0 := mdtraj) (fun _ => None) bare) as [K _].
  destruct (load_trajectory_outcome (H0 := mdtraj) traj_dict bare) as [_ G].
  destruct (load_trajectory_outcome (H0 := mdtraj) traj_dict
              (snd (set_selected_cvs [] strided))) as [_ B].
  specialize (G "traj.xtc"%string tt eq_refl eq_refl).
  specialize (B "traj.xtc"%string tt eq_refl eq_refl).
  destruct G as (G1 & _ & _ & _ & G2 & _).
  destruct B as (B1 & _ & _ & _ & _ & B2).
  split; [apply K; reflexivity|].
  split.
  - specialize (G2 eq_refl). vm_compute in G2 |- *. reflexivity.
  - split; [exact B1|]. apply B2. vm_compute. lia.
Defined.

Lemma compute_descriptors_without_trajectory_witness :
  compute_descriptors fresh
  = (Raise (KeyError "Trajectory not loaded. Call self.load_trajectory() first."), fresh).
Proof.
  destruct (compute_descriptors_without_trajectory (H0 := mdtraj) colvar7
              (Some descriptors7) None None None fresh) as [_ G].
  apply G. vm_compute. reflexivity.
Defined.

Lemma _CA_DISTANCES_columns_witness :
  exists df,
    _CA_DISTANCES with_traj = (Ok df, with_traj) /\
    columns df = ["DIST. GLY1-CA -- SER2-CA"; "DIST. GLY1-CA -- ALA3-CA";
                  "DIST. SER2-CA -- ALA3-CA"]%string /\
    2 * length (columns df) = 3 * (3 - 1) /\
    Forall (fun row => 2 * length row = 3 * (3 - 1)) (values df).
Proof.
  eexists. split; [vm_compute; reflexivity|]. split; [reflexivity|].
  pose proof (_CA_DISTANCES_columns (H0 := mdtraj) with_traj with_traj tt _ eq_refl eq_refl)
    as (_ & _ & _ & L & F & _).
  split; [exact L|exact F].
Defined.

Lemma hb_pairs_spec_witness :
  hb_donors tt = [0; 4; 7; 10] /\
  hb_pairs tt = [(0, 4); (0, 7); (0, 9); (0, 10); (0, 13); (3, 4); (3, 7); (3, 10);
                 (4, 10); (4, 13); (7, 10); (7, 13); (9, 10)] /\
  StronglySorted (fun p q => pair_compare p q = Lt) (hb_pairs tt) /\
  forall a b, In (a, b) (hb_pairs tt) -> a < b.
Proof.
  split; [reflexivity|]. split; [reflexivity|].
  pose proof (hb_pairs_spec (H0 := mdtraj) tt) as (S & L & _).
  split; [exact S|exact L].
Defined.

Lemma hb_donors_spec_witness :
  StronglySorted (fun x y => Nat.compare x y = Lt) (hb_donors tt) /\
  In 7 (hb_donors tt) /\
  exists b, In b (top_bonds tt) /\ atom_index (fst b) = 7 /\
            (element_symbol (fst b) = "O"%string \/ element_symbol (fst b) = "N"%string) /\
            element_symbol (snd b) = "H"%string.
Proof.
  pose proof (hb_donors_spec (H0 := mdtraj) tt) as (S & C).
  split; [exact S|].
  assert (I : In 7 (hb_donors tt)) by (vm_compute; auto).
  split; [exact I|]. apply C. exact I.
Defined.

Lemma _HYDROGEN_BONDS_table_witness :
  exists df,
    _HYDROGEN_BONDS with_traj = (Ok df, with_traj) /\
    length (columns df) = 26 /\ df_len df = 7 /\
    nth 0 (columns df) EmptyString = "HB_CONTACT GLY1-N -- SER2-N"%string /\
    nth 13 (columns df) EmptyString = "HB_DIST GLY1-N -- SER2-N"%string /\
    nth 0 (nth 0 (values df) []) 0%float = PrimFloat.nan /\
    nth 13 (nth 0 (values df) []) 0%float = 0x1.666666p-2%float.
Proof.
  eexists. split.
  - apply (_HYDROGEN_BONDS_table (H0 := mdtraj) with_traj tt
             (repeat (map distance (hb_pairs (H0 := mdtraj) tt)) frames)).
    + reflexivity.
    + reflexivity.
    + vm_compute. repeat constructor.
  - vm_compute. repeat split.
Defined.

Lemma contact_function_at_r0_witness :
  exists contacts,
    nth_error (contact_function [[r0_hydrogen_bond; 0.5]%float] r0_hydrogen_bond 0 6 12) 0
    = Some contacts /\
    nth_error contacts 0 = Some PrimFloat.nan.
Proof.
  apply (contact_function_at_r0 (H0 := mdtraj) [[r0_hydrogen_bond; 0.5]%float]
           r0_hydrogen_bond 0 6 12 0 0 [r0_hydrogen_bond; 0.5]%float r0_hydrogen_bond);
    reflexivity.
Defined.

Lemma _get_dihedrals_unknown_kind_witness :
  _get_dihedrals "omega" true with_traj
  = (Raise (KeyError "supported values: phi,psi,chi1,chi2"), with_traj).
Proof.
  apply (_get_dihedrals_unknown_kind (H0 := mdtraj) with_traj tt "omega" true);
    reflexivity.
Defined.

Lemma _get_dihedrals_shape_witness :
  _get_dihedrals "chi1" true with_traj
  = (Ok (["SIDECHAIN chi1 SER2"; "SIDECHAIN cos_chi1 SER2"; "SIDECHAIN sin_chi1 SER2"]%string,
         [repeat 1%float 7; repeat 0.5%float 7; repeat 1%float 7]), with_traj) /\
  exists idx_list angles,
    dihedrals_of_kind tt "chi1" = Ok (idx_list, angles) /\
    3 = 3 * length idx_list /\
    Forall (fun name => String.prefix (dihedral_tag "chi1") name = true)
      ["SIDECHAIN chi1 SER2"; "SIDECHAIN cos_chi1 SER2"; "SIDECHAIN sin_chi1 SER2"]%string.
Proof.
  split; [vm_compute; reflexivity|].
  pose proof (_get_dihedrals_shape (H0 := mdtraj) with_traj with_traj tt "chi1" true
                ["SIDECHAIN chi1 SER2"; "SIDECHAIN cos_chi1 SER2";
                 "SIDECHAIN sin_chi1 SER2"]%string
                [repeat 1%float 7; repeat 0.5%float 7; repeat 1%float 7]
                eq_refl eq_refl) as (_ & _ & idx_list & angles & E & Ln & _ & Fn & _).
  exists idx_list, angles. auto.
Defined.

Lemma _ANGLES_columns_witness :
  exists df,
    _ANGLES with_traj = (Ok df, with_traj) /\
    length (columns df) = 9 /\
    Forall (fun row => length row = length (columns df)) (values df).
Proof.
  eexists. split; [vm_compute; reflexivity|]. split; [reflexivity|].
  pose proof (_ANGLES_columns (H0 := mdtraj) with_traj with_traj tt _ eq_refl eq_refl)
    as (_ & i1 & a1 & i2 & a2 & i3 & a3 & i4 & a4 & n1 & n2 & n3 & n4 & R).
  now repeat (destruct R as [_ R]).
Defined.

Lemma compute_descriptors_outcome_witness :
  exists ca hb ang self',
    _CA_DISTANCES with_traj = (Ok ca, with_traj) /\
    _HYDROGEN_BONDS with_traj = (Ok hb, with_traj) /\
    _ANGLES with_traj = (Ok ang, with_traj) /\
    compute_descriptors with_traj = (Ok tt, self') /\
    descriptors self' = Some (concat_range_frames [ca; hb; ang]) /\
    length (columns (concat_range_frames [ca; hb; ang])) = 38 /\
    df_len (concat_range_frames [ca; hb; ang]) = 7.
Proof.
  eexists. eexists. eexists. eexists.
  split; [vm_compute; reflexivity|].
  split; [vm_compute; reflexivity|].
  split; [vm_compute; reflexivity|].
  match goal with
  | |- compute_descriptors _ = _ /\ descriptors _ = Some (concat_range_frames [?ca; ?hb; ?ang]) /\ _ =>
      destruct (compute_descriptors_outcome (H0 := mdtraj) with_traj tt ca hb ang
                  eq_refl eq_refl eq_refl eq_refl) as (E & C & L)
  end.
  split; [rewrite E; reflexivity|].
  split; [reflexivity|].
  split; [rewrite C; reflexivity|rewrite L; reflexivity].
Defined.

End FurtherOnExample.
